(** * Account gating of the NIH RePORTER e-mail search backend

    A shallow embedding of the two Cloudflare Pages Functions
    [functions/api/search.js] (register / login / search / upgrade / reset)
    and [functions/api/payment/webhook.js] (Stripe webhook), together with
    the properties of the account record and of the request-gating workflow.

    Conventions of the embedding
    - [USERS_KV] holds [JSON.stringify userData] and every read is followed
      by [JSON.parse]; the model stores the parsed record itself.  A field
      that is [undefined] is dropped by [JSON.stringify], hence an optional
      field is an [option] and [None] stands for "absent".
    - [await]ed effects (KV reads and writes, [fetch]) are threaded through
      a state monad over [world]; each effect is appended to a [trace], so
      that the order of effects can be stated.
    - What the platform answers ([new Date()], SHA-256, the replies of the
      NIH, Brevo and Stripe endpoints, the secrets in [context.env]) is read
      from a [runtime] record.
    - [console.log] / [console.error] are not modelled. *)

From stdpp Require Import base option list gmap strings pretty.

Local Open Scope string_scope.
Local Open Scope Z_scope.

(** ** JavaScript values *)

Module JS.

(** JSON values.  Numbers are restricted to integers (in the safe range,
    where [String] prints them in plain decimal). *)
#[warnings="-register-all"]
Inductive jsval : Type :=
| JNull
| JBool (b : bool)
| JNum (n : Z)
| JStr (s : string)
| JArr (xs : list jsval)
| JObj (fields : list (string * jsval)).

(** An object: its own enumerable properties in insertion order. *)
Abbreviation jsobj := (list (string * jsval)).

(** [!!v] of the language: ToBoolean. *)
Definition truthy (v : jsval) : bool :=
  match v with
  | JNull => false
  | JBool b => b
  | JNum n => negb (n =? 0)
  | JStr s => negb (String.eqb s "")
  | JArr _ | JObj _ => true
  end.

(** A property read gives [undefined] ([None]) or a value. *)
Definition truthy_opt (v : option jsval) : bool :=
  match v with
  | None => false
  | Some v => truthy v
  end.

(** Truthiness of a value known to be a string or [undefined]/[null]. *)
Definition str_truthy (s : option string) : bool :=
  match s with
  | None => false
  | Some s => negb (String.eqb s "")
  end.

(** [String(v)]. *)
Fixpoint js_String (v : jsval) : string :=
  match v with
  | JNull => "null"
  | JBool true => "true"
  | JBool false => "false"
  | JNum n => pretty n
  | JStr s => s
  | JArr xs =>
      (fix join (l : list jsval) : string :=
         match l with
         | [] => ""
         | x :: rest =>
             let elem := match x with JNull => "" | _ => js_String x end in
             match rest with
             | [] => elem
             | _ :: _ => elem +:+ "," +:+ join rest
             end
         end) xs
  | JObj _ => "[object Object]"
  end.

(** [o[k]] *)
Fixpoint obj_get (k : string) (o : jsobj) : option jsval :=
  match o with
  | [] => None
  | (k', v) :: rest => if String.eqb k' k then Some v else obj_get k rest
  end.

(** [o[k] = v]: an existing property keeps its place, a new one goes last. *)
Fixpoint obj_set (k : string) (v : jsval) (o : jsobj) : jsobj :=
  match o with
  | [] => [(k, v)]
  | (k', v') :: rest =>
      if String.eqb k' k then (k, v) :: rest else (k', v') :: obj_set k v rest
  end.

(** [delete o[k]] *)
Fixpoint obj_delete (k : string) (o : jsobj) : jsobj :=
  match o with
  | [] => []
  | (k', v') :: rest =>
      if String.eqb k' k then obj_delete k rest else (k', v') :: obj_delete k rest
  end.

(** A property whose value is [undefined] is left out by [JSON.stringify]. *)
Definition opt_field (k : string) (v : option jsval) : jsobj :=
  match v with
  | None => []
  | Some v => [(k, v)]
  end.

End JS.
Export JS.

(** ** Dates *)

(** A [Date], by its UTC fields (the Workers runtime runs in UTC, so
    [getMonth] and [getFullYear] read these fields).  [getMonth] is
    zero-based, as in the language. *)
Record Date : Type := {
  getFullYear : Z;
  getMonth : Z;
  getDate : Z;
  getHours : Z;
  getMinutes : Z;
  getSeconds : Z;
  getMilliseconds : Z
}.

Fixpoint zeros (n : nat) : string :=
  match n with
  | O => ""
  | S n => "0" +:+ zeros n
  end.

(** [String(n).padStart(w, '0')] *)
Definition padStart (w : nat) (n : Z) : string :=
  let s := pretty n in
  zeros (w - String.length s) +:+ s.

(** [d.toISOString()], for years 0 to 9999. *)
Definition toISOString (d : Date) : string :=
  padStart 4 (getFullYear d) +:+ "-" +:+ padStart 2 (getMonth d + 1) +:+ "-" +:+
  padStart 2 (getDate d) +:+ "T" +:+ padStart 2 (getHours d) +:+ ":" +:+
  padStart 2 (getMinutes d) +:+ ":" +:+ padStart 2 (getSeconds d) +:+ "." +:+
  padStart 3 (getMilliseconds d) +:+ "Z".

(** ** The account record *)

(** [userData], the value kept in [USERS_KV] under the account's e-mail
    address.  The first six fields are written by [handleRegister]; the last
    four appear once the payment webhook has written them.  The counter is
    an integer: it starts at 0 and is only reset or raised by one.  Dates
    are kept as [Date]s and printed with [toISOString] where they are
    serialised. *)
Record user : Type := {
  email : string;
  password_hash : string;
  subscription_status : string;
  monthly_searches : Z;
  created_at : Date;
  last_reset : option Date;
  stripe_customer_id : option jsval;
  subscription_id : option jsval;
  upgraded_at : option Date;
  last_payment : option Date
}.

Definition iso (d : Date) : jsval := JStr (toISOString d).

(** The object that [JSON.stringify userData] serialises. *)
Definition user_to_obj (u : user) : jsobj :=
  [ ("email", JStr (email u));
    ("password_hash", JStr (password_hash u));
    ("subscription_status", JStr (subscription_status u));
    ("monthly_searches", JNum (monthly_searches u));
    ("created_at", iso (created_at u)) ]
  ++ opt_field "last_reset" (iso <$> last_reset u)
  ++ opt_field "stripe_customer_id" (stripe_customer_id u)
  ++ opt_field "subscription_id" (subscription_id u)
  ++ opt_field "upgraded_at" (iso <$> upgraded_at u)
  ++ opt_field "last_payment" (iso <$> last_payment u).

(** [const { password_hash, ...safeUserData } = userData] *)
Definition safeUserData (userData : user) : jsobj :=
  obj_delete "password_hash" (user_to_obj userData).

(** ** Requests, responses and the platform *)

(** The outcome of [await fetch(...)]: the promise rejects (transport
    error), or a response arrives with a status and a body. *)
Inductive fetched (B : Type) : Type :=
| Rejected (message : string)
| Responded (status : Z) (body : B).
Arguments Rejected {B} message.
Arguments Responded {B} status body.

(** [response.ok] *)
Definition ok (status : Z) : bool := (200 <=? status) && (status <=? 299).

Module Nih.
(** The body posted to [https://api.reporter.nih.gov/v2/projects/search]. *)
Record payload : Type := {
  criteria : jsobj;
  sort_field : string;
  sort_order : string;
  offset : Z;
  limit : Z
}.

(** What [await nihResponse.json()] followed by [nihData.results] gives:
    the body is not JSON, or it is [null] (reading [.results] throws), or
    it is a value whose [results] property is absent or an array. *)
Inductive json : Type :=
| NotJson (message : string)
| Null (message : string)
| Data (results : option (list jsval)).
End Nih.

Module Stripe.
(** What [await stripeResponse.json()] gives. *)
Inductive json : Type :=
| NotJson (message : string)
| Data (url : option jsval).
End Stripe.

(** An HTTP response: JSON bodies are kept as the object given to
    [JSON.stringify]. *)
Inductive body_t : Type :=
| Text (s : string)
| Json (o : jsobj).

Record Response : Type := {
  status : Z;
  headers : list (string * string);
  body : body_t
}.

(** One effect of a handler on the outside world. *)
Inductive event : Type :=
| KvGet (key : string)
| KvPut (key : string) (value : user)
| NihSearch (payload : Nih.payload)
| BrevoAccount (api_key : string)
| BrevoSendEmail (api_key sender to : string) (projects : list jsval) (criteria : jsobj)
| StripeCheckoutSession (secret_key : string) (params : list (string * string)).

(** What the platform provides to a handler.  A handler runs within one
    millisecond of the clock: every [new Date()] of a request reads [now]. *)
Record runtime : Type := {
  now : Date;                                   (* new Date() *)
  sha256_hex : string → string;                 (* crypto.subtle.digest, in hex *)
  BREVO_API_KEY : option string;
  SENDER_EMAIL : option string;
  STRIPE_SECRET_KEY : option string;
  STRIPE_PRICE_ID : option string;
  nih_projects_search : Nih.payload → fetched Nih.json;
  brevo_account : string → fetched unit;
  brevo_smtp_email : string → string → list jsval → jsobj → fetched string;
  stripe_checkout_sessions : list (string * string) → fetched Stripe.json
}.

(** The store and the effects performed so far, oldest first. *)
Record world : Type := {
  USERS_KV : gmap string user;
  trace : list event
}.

Definition M (A : Type) : Type := world → A * world.

#[global] Instance M_ret : MRet M := λ A a w, (a, w).
#[global] Instance M_bind : MBind M := λ A B f m w, let '(a, w') := m w in f a w'.

Definition emit (e : event) : M unit :=
  λ w, (tt, {| USERS_KV := USERS_KV w; trace := trace w ++ [e] |}).

(** [await context.env.USERS_KV.get(key)] *)
Definition kv_get (key : string) : M (option user) :=
  λ w, (USERS_KV w !! key,
        {| USERS_KV := USERS_KV w; trace := trace w ++ [KvGet key] |}).

(** [await context.env.USERS_KV.put(key, JSON.stringify(value))] *)
Definition kv_put (key : string) (value : user) : M unit :=
  λ w, (tt, {| USERS_KV := <[key := value]> (USERS_KV w);
               trace := trace w ++ [KvPut key value] |}).

(** [await fetch(url, ...)], by the endpoint called. *)
Definition fetch_nih (rt : runtime) (p : Nih.payload) : M (fetched Nih.json) :=
  _ ← emit (NihSearch p); mret (nih_projects_search rt p).

Definition fetch_brevo_account (rt : runtime) (key : string) : M (fetched unit) :=
  _ ← emit (BrevoAccount key); mret (brevo_account rt key).

Definition fetch_brevo_smtp_email (rt : runtime) (key sender to : string)
    (projects : list jsval) (criteria : jsobj) : M (fetched string) :=
  _ ← emit (BrevoSendEmail key sender to projects criteria);
  mret (brevo_smtp_email rt sender to projects criteria).

Definition fetch_stripe_checkout (rt : runtime) (key : string)
    (params : list (string * string)) : M (fetched Stripe.json) :=
  _ ← emit (StripeCheckoutSession key params);
  mret (stripe_checkout_sessions rt params).

(** [if (!s) ...] on a string that may be missing: a missing or empty
    string is falsy. *)
Definition nonempty (s : option string) : option string :=
  match s with
  | Some s => if String.eqb s "" then None else Some s
  | None => None
  end.

(** ** functions/api/search.js *)

Module Body.
(** The JSON body of a request to [/api/search].  [onRequest] destructures
    [action], [email], [password] and [criteria]; whatever else the caller
    sends (here the paging and sorting fields that the ungated passthrough
    of [search.js] honours) is carried along.  [None] is an absent field. *)
Record t : Type := {
  action : option string;
  email : option string;
  password : option string;
  criteria : option jsobj;
  sort_field : option jsval;
  sort_order : option jsval;
  offset : option jsval;
  limit : option jsval
}.
End Body.

Module Api.

Record request : Type := {
  method : string;
  json : option Body.t          (* [None]: [context.request.json()] throws *)
}.

Definition cors : list (string * string) :=
  [ ("Access-Control-Allow-Origin", "*");
    ("Access-Control-Allow-Headers", "Content-Type");
    ("Access-Control-Allow-Methods", "POST, OPTIONS") ].

(** [new Response(JSON.stringify(o), { status, headers: { ...cors,
    "Content-Type": "application/json" } })] *)
Definition json_response (st : Z) (o : jsobj) : Response :=
  {| status := st;
     headers := cors ++ [("Content-Type", "application/json")];
     body := Json o |}.

Definition error_response (st : Z) (message : string) : Response :=
  json_response st [("error", JStr message)].

Definition hashPassword (rt : runtime) (password : string) : string :=
  sha256_hex rt password.

Definition verifyPassword (rt : runtime) (password hash : string) : bool :=
  String.eqb (hashPassword rt password) hash.

Definition handleRegister (rt : runtime) (email password : option string) : M Response :=
  match nonempty email, nonempty password with
  | Some email, Some password =>
      existingUser ← kv_get email;
      match existingUser with
      | Some _ => mret (error_response 400 "User already exists")
      | None =>
          let hashedPassword := hashPassword rt password in
          let userData :=
            {| email := email;
               password_hash := hashedPassword;
               subscription_status := "free";
               monthly_searches := 0;
               created_at := now rt;
               last_reset := Some (now rt);
               stripe_customer_id := None;
               subscription_id := None;
               upgraded_at := None;
               last_payment := None |} in
          _ ← kv_put email userData;
          mret (json_response 200
                  [ ("success", JBool true);
                    ("message", JStr "Registration successful");
                    ("user", JObj (safeUserData userData)) ])
      end
  | _, _ => mret (error_response 400 "Email and password required")
  end.

(** [userData.monthly_searches = 0; userData.last_reset = now.toISOString()] *)
Definition reset_counter (now : Date) (userData : user) : user :=
  {| email := email userData;
     password_hash := password_hash userData;
     subscription_status := subscription_status userData;
     monthly_searches := 0;
     created_at := created_at userData;
     last_reset := Some now;
     stripe_customer_id := stripe_customer_id userData;
     subscription_id := subscription_id userData;
     upgraded_at := upgraded_at userData;
     last_payment := last_payment userData |}.

(** [userData.monthly_searches += 1] *)
Definition count_search (userData : user) : user :=
  {| email := email userData;
     password_hash := password_hash userData;
     subscription_status := subscription_status userData;
     monthly_searches := monthly_searches userData + 1;
     created_at := created_at userData;
     last_reset := last_reset userData;
     stripe_customer_id := stripe_customer_id userData;
     subscription_id := subscription_id userData;
     upgraded_at := upgraded_at userData;
     last_payment := last_payment userData |}.

(** [now.getMonth() !== lastReset.getMonth() ||
     now.getFullYear() !== lastReset.getFullYear()] *)
Definition new_month (now lastReset : Date) : bool :=
  negb (getMonth now =? getMonth lastReset)
  || negb (getFullYear now =? getFullYear lastReset).

Definition handleLogin (rt : runtime) (email password : option string) : M Response :=
  match nonempty email, nonempty password with
  | Some email, Some password =>
      userDataString ← kv_get email;
      match userDataString with
      | None => mret (error_response 401 "Invalid credentials")
      | Some userData =>
          let isValidPassword := verifyPassword rt password (password_hash userData) in
          if negb isValidPassword then mret (error_response 401 "Invalid credentials")
          else
            let now := now rt in
            (* new Date(userData.last_reset || userData.created_at) *)
            let lastReset := default (created_at userData) (last_reset userData) in
            userData ←
              (if new_month now lastReset then
                 let userData := reset_counter now userData in
                 _ ← kv_put email userData; mret userData
               else mret userData);
            mret (json_response 200
                    [ ("success", JBool true);
                      ("message", JStr "Login successful");
                      ("user", JObj (safeUserData userData)) ])
      end
  | _, _ => mret (error_response 400 "Email and password required")
  end.

(** [const isFreeTier = userData.subscription_status !== 'active'] *)
Definition isFreeTier (userData : user) : bool :=
  negb (String.eqb (subscription_status userData) "active").

Definition maxSearches (userData : user) : Z :=
  if isFreeTier userData then 5 else 15.

Definition maxAbstracts (userData : user) : Z :=
  if isFreeTier userData then 3 else 10.

(** The criteria as sent to the NIH API: a truthy [text_search] becomes an
    [advanced_text_search] clause and is deleted. *)
Definition searchCriteria (criteria : jsobj) : jsobj :=
  let searchCriteria := criteria in                        (* { ...criteria } *)
  match obj_get "text_search" searchCriteria with
  | Some text_search =>
      if truthy text_search then
        let searchCriteria :=
          obj_set "advanced_text_search"
            (JObj [ ("operator", JStr "and");
                    ("search_field", JStr "projecttitle,terms,abstracttext");
                    ("search_text", JStr (js_String text_search)) ])
            searchCriteria in
        obj_delete "text_search" searchCriteria
      else searchCriteria
  | None => searchCriteria
  end.

Definition nihPayload (userData : user) (criteria : jsobj) : Nih.payload :=
  {| Nih.criteria := searchCriteria criteria;
     Nih.sort_field := "project_start_date";
     Nih.sort_order := "desc";
     Nih.offset := 0;
     Nih.limit := maxAbstracts userData |}.

(** The Brevo notifier.  It answers [false] on a missing configuration, on
    a rejected key and on any failure of the send; it never throws.  The
    HTML of the message is a function of [projects] and [criteria] and is
    not spelled out: the send is recorded with these two arguments. *)
Definition sendSearchResultsEmail (rt : runtime) (email : string)
    (projects : list jsval) (criteria : jsobj) : M bool :=
  match nonempty (BREVO_API_KEY rt), nonempty (SENDER_EMAIL rt) with
  | Some brevoApiKey, Some senderEmail =>
      testResponse ← fetch_brevo_account rt brevoApiKey;
      match testResponse with
      | Rejected _ => mret false
      | Responded st _ =>
          if negb (ok st) then mret false
          else
            emailResponse ←
              fetch_brevo_smtp_email rt brevoApiKey senderEmail email projects criteria;
            match emailResponse with
            | Rejected _ => mret false
            | Responded st _ => mret (ok st)
            end
      end
  | _, _ => mret false
  end.

(** The [catch] of [handleSearch]. *)
Definition search_failed (message : string) : Response :=
  error_response 500 ("Search failed: " +:+ message).

Definition handleSearch (rt : runtime) (email : option string)
    (criteria : option jsobj) : M Response :=
  match nonempty email, criteria with
  | Some email, Some criteria =>
      userDataString ← kv_get email;
      match userDataString with
      | None => mret (error_response 404 "User not found")
      | Some userData =>
          if maxSearches userData <=? monthly_searches userData then
            mret (error_response 429
                    ("Search limit reached. " +:+
                     (if isFreeTier userData then "Free users get 5 searches/month"
                      else "Pro users get 15 searches/month") +:+
                     ". Upgrade for more!"))
          else
            let searchCriteria := searchCriteria criteria in
            nihResponse ← fetch_nih rt (nihPayload userData criteria);
            match nihResponse with
            | Rejected message => mret (search_failed message)
            | Responded st nihData =>
                if negb (ok st) then
                  mret (search_failed ("NIH API error: " +:+ pretty st))
                else
                  match nihData with
                  | Nih.NotJson message | Nih.Null message =>
                      mret (search_failed message)
                  | Nih.Data results =>
                      let projects := default [] results in   (* nihData.results || [] *)
                      let userData := count_search userData in
                      _ ← kv_put email userData;
                      emailSent ← sendSearchResultsEmail rt email projects searchCriteria;
                      let results_count := Z.of_nat (length projects) in
                      if negb emailSent then
                        mret (json_response 200
                          [ ("success", JBool true);
                            ("message", JStr ("Search completed! " +:+ pretty results_count +:+
                               " results found (email delivery failed - please check your email configuration)"));
                            ("user", JObj (safeUserData userData));
                            ("results_count", JNum results_count);
                            ("warning", JStr "Email delivery failed") ])
                      else
                        mret (json_response 200
                          [ ("success", JBool true);
                            ("message", JStr ("Search completed! " +:+ pretty results_count +:+
                               " results sent to your email"));
                            ("user", JObj (safeUserData userData));
                            ("results_count", JNum results_count) ])
                  end
            end
      end
  | _, _ => mret (error_response 400 "Email and search criteria required")
  end.

Definition upgrade_failed (message : string) : Response :=
  error_response 500 ("Upgrade failed: " +:+ message).

(** [URLSearchParams.append] stringifies its value: a missing e-mail is sent
    as the text "undefined". *)
Definition handleUpgrade (rt : runtime) (email : option string) : M Response :=
  match nonempty (STRIPE_SECRET_KEY rt), nonempty (STRIPE_PRICE_ID rt) with
  | Some stripeSecretKey, Some stripePriceId =>
      let email := default "undefined" email in
      let params :=
        [ ("payment_method_types[]", "card");
          ("mode", "subscription");
          ("line_items[0][price]", stripePriceId);
          ("line_items[0][quantity]", "1");
          ("customer_email", email);
          ("success_url", "http://localhost:8788/?success=true");
          ("cancel_url", "http://localhost:8788/?cancelled=true");
          ("metadata[user_email]", email) ] in
      stripeResponse ← fetch_stripe_checkout rt stripeSecretKey params;
      match stripeResponse with
      | Rejected message => mret (upgrade_failed message)
      | Responded st stripeData =>
          if negb (ok st) then mret (upgrade_failed "Payment session creation failed")
          else
            match stripeData with
            | Stripe.NotJson message => mret (upgrade_failed message)
            | Stripe.Data url =>
                mret (json_response 200
                        ([("success", JBool true)] ++ opt_field "checkout_url" url))
            end
      end
  | _, _ => mret (error_response 500 "Payment configuration missing")
  end.

(** [handleReset] does not test [email]; the KV binding rejects a key that
    is missing or empty, which the [catch] turns into "Reset failed". *)
Definition handleReset (rt : runtime) (email : option string) : M Response :=
  match nonempty email with
  | Some email =>
      userDataString ← kv_get email;
      match userDataString with
      | None => mret (error_response 404 "User not found")
      | Some userData =>
          let userData := reset_counter (now rt) userData in
          _ ← kv_put email userData;
          mret (json_response 200
                  [ ("success", JBool true);
                    ("message", JStr "Search counter reset successfully");
                    ("user", JObj (safeUserData userData)) ])
      end
  | None => mret (error_response 500 "Reset failed")
  end.

Definition onRequest (rt : runtime) (req : request) : M Response :=
  if String.eqb (method req) "OPTIONS" then
    mret {| status := 200; headers := cors; body := Text "" |}
  else if negb (String.eqb (method req) "POST") then
    mret (error_response 405 "Use POST method")
  else
    match json req with
    | None => mret (error_response 500 "Internal server error")
    | Some body =>
        let action := default "" (Body.action body) in
        let email := Body.email body in
        let password := Body.password body in
        let criteria := Body.criteria body in
        if String.eqb action "register" then handleRegister rt email password
        else if String.eqb action "login" then handleLogin rt email password
        else if String.eqb action "search" then handleSearch rt email criteria
        else if String.eqb action "upgrade" then handleUpgrade rt email
        else if String.eqb action "reset" then handleReset rt email
        else mret (error_response 400 "Invalid action")
    end.

End Api.

(** ** functions/api/payment/webhook.js *)

Module Webhook.

(** [payload.data.object]: a checkout session or an invoice, by the
    properties the handlers read.  [metadata_user_email] is
    [object.metadata?.user_email]. *)
Record stripe_object : Type := {
  customer_email : option string;
  metadata_user_email : option string;
  customer : option jsval;
  subscription : option jsval
}.

(** Reading [payload.data.object]: [data] is missing (the read throws in
    [onRequest]), or [object] is missing (the handler's first property read
    throws inside its own [try]), or there is an object. *)
Inductive event_data : Type :=
| DataMissing
| ObjectMissing
| Object (o : stripe_object).

Record payload : Type := {
  type : option string;
  data : event_data
}.

Record request : Type := {
  method : string;
  stripe_signature : option string;   (* the Stripe-Signature header *)
  text : option payload               (* [JSON.parse(body)]; [None]: it throws *)
}.

Definition cors : list (string * string) :=
  [ ("Access-Control-Allow-Origin", "*");
    ("Access-Control-Allow-Headers", "Content-Type, Stripe-Signature");
    ("Access-Control-Allow-Methods", "POST, OPTIONS") ].

Definition json_response (st : Z) (o : jsobj) : Response :=
  {| status := st;
     headers := cors ++ [("Content-Type", "application/json")];
     body := Json o |}.

(** [session.customer_email || session.metadata?.user_email] *)
Definition customerEmail (session : stripe_object) : option string :=
  if str_truthy (customer_email session) then customer_email session
  else metadata_user_email session.

(** The four assignments of [handleCheckoutCompleted]. *)
Definition activate (now : Date) (session : stripe_object) (userData : user) : user :=
  {| email := email userData;
     password_hash := password_hash userData;
     subscription_status := "active";
     monthly_searches := monthly_searches userData;
     created_at := created_at userData;
     last_reset := last_reset userData;
     stripe_customer_id := customer session;
     subscription_id := subscription session;
     upgraded_at := Some now;
     last_payment := last_payment userData |}.

Definition handleCheckoutCompleted (rt : runtime) (session : stripe_object) : M unit :=
  match nonempty (customerEmail session) with
  | None => mret tt
  | Some customerEmail =>
      userDataString ← kv_get customerEmail;
      match userDataString with
      | None => mret tt
      | Some userData => kv_put customerEmail (activate (now rt) session userData)
      end
  end.

(** The two assignments of [handlePaymentSucceeded]. *)
Definition paid (now : Date) (userData : user) : user :=
  {| email := email userData;
     password_hash := password_hash userData;
     subscription_status := "active";
     monthly_searches := monthly_searches userData;
     created_at := created_at userData;
     last_reset := last_reset userData;
     stripe_customer_id := stripe_customer_id userData;
     subscription_id := subscription_id userData;
     upgraded_at := upgraded_at userData;
     last_payment := Some now |}.

Definition handlePaymentSucceeded (rt : runtime) (invoice : stripe_object) : M unit :=
  match nonempty (customer_email invoice) with
  | None => mret tt
  | Some customerEmail =>
      userDataString ← kv_get customerEmail;
      match userDataString with
      | None => mret tt
      | Some userData => kv_put customerEmail (paid (now rt) userData)
      end
  end.

(** Only logs. *)
Definition handleSubscriptionCancelled (rt : runtime) (subscription : stripe_object) : M unit :=
  mret tt.

Definition received : Response := json_response 200 [("received", JBool true)].

Definition webhook_failed : Response := json_response 400 [("error", JStr "Webhook failed")].

(** Runs [handler] on [payload.data.object]. *)
Definition on_object (d : event_data) (handler : stripe_object → M unit) : M Response :=
  match d with
  | DataMissing => mret webhook_failed
  | ObjectMissing => mret received
  | Object o => _ ← handler o; mret received
  end.

Definition onRequest (rt : runtime) (req : request) : M Response :=
  if String.eqb (method req) "OPTIONS" then
    mret {| status := 200; headers := cors; body := Text "" |}
  else if negb (String.eqb (method req) "POST") then
    mret {| status := 405; headers := cors; body := Text "Method not allowed" |}
  else
    let sig := stripe_signature req in      (* read, and not used afterwards *)
    match text req with
    | None => mret webhook_failed
    | Some payload =>
        let type := default "" (type payload) in
        if String.eqb type "checkout.session.completed" then
          on_object (data payload) (handleCheckoutCompleted rt)
        else if String.eqb type "invoice.payment_succeeded" then
          on_object (data payload) (handlePaymentSucceeded rt)
        else if String.eqb type "customer.subscription.deleted" then
          on_object (data payload) (handleSubscriptionCancelled rt)
        else mret received
    end.

End Webhook.

(** ** Observations used by the statements *)

(** The account that a response body carries, under ["user"]. *)
Definition account_of (r : Response) : option jsval :=
  match body r with
  | Json o => obj_get "user" o
  | Text _ => None
  end.

(** Does that account have a [password_hash] property? *)
Definition exposes_password_hash (r : Response) : bool :=
  match account_of r with
  | Some (JObj account) => bool_decide (is_Some (obj_get "password_hash" account))
  | _ => false
  end.

(** Unfolds the monad and the effects. *)
Ltac run :=
  unfold mbind, M_bind, mret, M_ret, fetch_nih, fetch_brevo_account,
    fetch_brevo_smtp_email, fetch_stripe_checkout, emit, kv_get, kv_put in *;
  simpl in *.

(** Runs a handler through all its branches. *)
Ltac answers_json :=
  run; repeat case_match; simpl; eauto.

(** The [put]s of a trace, oldest first. *)
Fixpoint kv_writes (tr : list event) : list (string * user) :=
  match tr with
  | [] => []
  | KvPut k v :: tr => (k, v) :: kv_writes tr
  | _ :: tr => kv_writes tr
  end.

(** Sample data, for the examples below. *)
Module Sample.

Definition date (y m d : Z) : Date :=
  {| getFullYear := y; getMonth := m; getDate := d; getHours := 12;
     getMinutes := 0; getSeconds := 0; getMilliseconds := 0 |}.

(** A platform on 10 February 2024 (months count from 0) where the NIH API
    answers [nih] and Brevo answers [brevo] to the send.  The digest is a
    stand-in. *)
Definition platform (nih : fetched Nih.json) (brevo : fetched string) : runtime :=
  {| now := date 2024 1 10;
     sha256_hex := λ s, "sha256:" +:+ s;
     BREVO_API_KEY := Some "key";
     SENDER_EMAIL := Some "scoop@example.org";
     STRIPE_SECRET_KEY := Some "sk";
     STRIPE_PRICE_ID := Some "price";
     nih_projects_search := λ _, nih;
     brevo_account := λ _, Responded 200 tt;
     brevo_smtp_email := λ _ _ _ _, brevo;
     stripe_checkout_sessions := λ _, Responded 200 (Stripe.Data (Some (JStr "https://checkout"))) |}.

Definition two_results : fetched Nih.json :=
  Responded 200 (Nih.Data (Some [JObj [("fy", JNum 2023)]; JObj [("fy", JNum 2024)]])).

Definition rt : runtime := platform two_results (Responded 201 "").

(** An account of [a@x.com], password "pw", last reset on 15 January 2024. *)
Definition account (subscription : string) (searches : Z) : user :=
  {| email := "a@x.com";
     password_hash := "sha256:pw";
     subscription_status := subscription;
     monthly_searches := searches;
     created_at := date 2023 11 1;
     last_reset := Some (date 2024 0 15);
     stripe_customer_id := None;
     subscription_id := None;
     upgraded_at := None;
     last_payment := None |}.

Definition store (u : user) : world :=
  {| USERS_KV := {[ "a@x.com" := u ]}; trace := [] |}.

Definition cancer : jsobj := [("text_search", JStr "cancer"); ("fiscal_years", JArr [JNum 2024])].

End Sample.

(** The calls of the notifier. *)
Definition is_notifier_event (e : event) : bool :=
  match e with
  | BrevoAccount _ | BrevoSendEmail _ _ _ _ _ => true
  | _ => false
  end.

(** The message that the [catch] of [handleSearch] reports when the call to
    the NIH API fails: the rejection of [fetch], or a status outside 2xx. *)
Definition upstream_failure (reply : fetched Nih.json) : option string :=
  match reply with
  | Rejected message => Some message
  | Responded st _ => if ok st then None else Some ("NIH API error: " +:+ pretty st)
  end.

(** The payloads posted to the NIH API in a trace, oldest first. *)
Fixpoint nih_requests (tr : list event) : list Nih.payload :=
  match tr with
  | [] => []
  | NihSearch p :: tr => p :: nih_requests tr
  | _ :: tr => nih_requests tr
  end.

(** The compound text-search clause built from the free text. *)
Definition advanced_text_search (text : jsval) : jsval :=
  JObj [ ("operator", JStr "and");
         ("search_field", JStr "projecttitle,terms,abstracttext");
         ("search_text", JStr (js_String text)) ].

(** The rewrite as the specification words it: whenever the criteria have a
    free-text property, the payload has the clause built from it and no
    free-text property. *)
Definition free_text_always_rewritten (criteria : jsobj) (p : Nih.payload) : Prop :=
  ∀ text, obj_get "text_search" criteria = Some text →
    obj_get "text_search" (Nih.criteria p) = None
    ∧ obj_get "advanced_text_search" (Nih.criteria p) = Some (advanced_text_search text).

(** The body of a [search] request with nothing but the required fields. *)
Definition search_body (e : string) (criteria : jsobj) : Body.t :=
  {| Body.action := Some "search";
     Body.email := Some e;
     Body.password := None;
     Body.criteria := Some criteria;
     Body.sort_field := None;
     Body.sort_order := None;
     Body.offset := None;
     Body.limit := None |}.

(** The store after a checkout confirmation for [session], applied on the
    platform [rt] (which gives the date) to the store [kv]. *)
Definition apply_confirmation (rt : runtime) (session : Webhook.stripe_object)
    (kv : gmap string user) : gmap string user :=
  USERS_KV (Webhook.handleCheckoutCompleted rt session {| USERS_KV := kv; trace := [] |}).2.

(** The record without the date of the upgrade. *)
Definition without_upgraded_at (u : user) : user :=
  {| email := email u;
     password_hash := password_hash u;
     subscription_status := subscription_status u;
     monthly_searches := monthly_searches u;
     created_at := created_at u;
     last_reset := last_reset u;
     stripe_customer_id := stripe_customer_id u;
     subscription_id := subscription_id u;
     upgraded_at := None;
     last_payment := last_payment u |}.

(** A checkout session of the customer [e]. *)
Definition session_of (e : string) : Webhook.stripe_object :=
  {| Webhook.customer_email := Some e;
     Webhook.metadata_user_email := None;
     Webhook.customer := Some (JStr "cus_1");
     Webhook.subscription := Some (JStr "sub_1") |}.

(** The confirmation as the specification words it: a second application
    of the same confirmation leaves the store as the first one left it. *)
Definition confirmation_idempotent (first second : runtime)
    (session : Webhook.stripe_object) (kv : gmap string user) : Prop :=
  apply_confirmation second session (apply_confirmation first session kv)
  = apply_confirmation first session kv.

(** ** src/search.js *)

(** The ungated passthrough to the NIH API.  It has no access to
    [USERS_KV]; its only effect is the one [fetch], whose reply is the
    argument [nih] of [onRequest]. *)
Module Passthrough.

(** The JSON body of the request, by the properties that are read with
    [body?.x].  A body that is [null] has none of them.  [limit] and
    [offset] are integers when present ([None]: missing or [null], which
    [??] replaces by the default); [criteria] is an object when truthy. *)
Record body_t : Type := {
  criteria : option jsobj;
  limit : option Z;
  offset : option Z;
  sort_field : option jsval;
  sort_order : option jsval
}.

Inductive parsed : Type :=
| Throws (message : string)       (* [context.request.json()] rejects *)
| Parsed (b : body_t).

Record request : Type := {
  method : string;
  json : parsed
}.

Record payload : Type := {
  p_criteria : jsobj;
  p_sort_field : jsval;
  p_sort_order : jsval;
  p_offset : Z;
  p_limit : Z
}.

Definition cors : list (string * string) :=
  [ ("Access-Control-Allow-Origin", "*");
    ("Access-Control-Allow-Headers", "Content-Type");
    ("Access-Control-Allow-Methods", "POST, OPTIONS") ].

(** [v ?? d] *)
Definition nullish (v : option jsval) (d : jsval) : jsval :=
  match v with
  | None | Some JNull => d
  | Some v => v
  end.

(** "Map frontend fields to NIH schema". *)
Definition map_criteria (incoming : jsobj) : jsobj :=
  let criteria := incoming in                                (* { ...incoming } *)
  match obj_get "text_search" criteria with
  | Some text_search =>
      if truthy text_search then
        let criteria :=
          obj_set "advanced_text_search"
            (JObj [ ("operator", JStr "and");
                    ("search_field", JStr "projecttitle,terms,abstracttext");
                    ("search_text", JStr (js_String text_search)) ])
            criteria in
        let criteria := obj_delete "text_search" criteria in
        obj_delete "text" criteria
      else criteria
  | None => criteria
  end.

Definition build_payload (body : body_t) : payload :=
  let incoming := default [] (criteria body) in              (* body?.criteria || {} *)
  let criteria := map_criteria incoming in
  let limit := Z.min (Z.max (default 25 (limit body)) 1) 100 in
  let offset := Z.max (default 0 (offset body)) 0 in
  {| p_criteria := criteria;
     p_sort_field := nullish (sort_field body) (JStr "project_start_date");
     p_sort_order := nullish (sort_order body) (JStr "desc");
     p_offset := offset;
     p_limit := limit |}.

(** The [catch]: [e.message || "bad request"]. *)
Definition bad_request (message : string) : Response :=
  {| status := 400;
     headers := cors ++ [("Content-Type", "application/json")];
     body := Json [("error", JStr (if String.eqb message "" then "bad request" else message))] |}.

Definition onRequest (nih : payload → fetched string) (req : request) : Response :=
  if String.eqb (method req) "OPTIONS" then
    {| status := 200; headers := cors; body := Text "" |}
  else if negb (String.eqb (method req) "POST") then
    {| status := 405;
       headers := cors ++ [("Content-Type", "application/json")];
       body := Json [("error", JStr "Use POST")] |}
  else
    match json req with
    | Throws message => bad_request message
    | Parsed body =>
        match nih (build_payload body) with
        | Rejected message => bad_request message
        | Responded st text =>
            {| status := st;
               headers := cors ++ [("Content-Type", "application/json")];
               body := Text text |}
        end
    end.

End Passthrough.

(** ** Further observations *)

(** The record that [handleRegister] stores for the address [e] and the
    password [p]. *)
Definition fresh_account (rt : runtime) (e p : string) : user :=
  {| email := e;
     password_hash := Api.hashPassword rt p;
     subscription_status := "free";
     monthly_searches := 0;
     created_at := now rt;
     last_reset := Some (now rt);
     stripe_customer_id := None;
     subscription_id := None;
     upgraded_at := None;
     last_payment := None |}.

(** What a request to [/api/search] can do to the record under one key:
    create it, count a search that was within quota, or reset the counter
    at the date of the platform. *)
Definition api_change (rt : runtime) (e : string) (old : option user) (new : user) : Prop :=
  match old with
  | None => ∃ p, p ≠ "" ∧ new = fresh_account rt e p
  | Some u =>
      (new = Api.count_search u ∧ monthly_searches u < Api.maxSearches u)
      ∨ new = Api.reset_counter (now rt) u
  end.

(** What a webhook request can do to an existing record. *)
Definition webhook_change (rt : runtime) (u new : user) : Prop :=
  (∃ session, new = Webhook.activate (now rt) session u)
  ∨ new = Webhook.paid (now rt) u.

(** The address that a request to [/api/search] names. *)
Definition named_email (req : Api.request) : option string :=
  match Api.json req with
  | Some b => nonempty (Body.email b)
  | None => None
  end.

(** Every stored record carries the address it is stored under. *)
Definition keyed_by_email (kv : gmap string user) : Prop :=
  ∀ k u, kv !! k = Some u → email u = k.

(** Every counter lies between 0 and the limit of its tier. *)
Definition within_limits (kv : gmap string user) : Prop :=
  ∀ k u, kv !! k = Some u → 0 ≤ monthly_searches u ≤ Api.maxSearches u.

(** [n] searches in a row by the same caller with the same criteria. *)
Fixpoint search_times (rt : runtime) (e : string) (criteria : jsobj) (n : nat)
    (w : world) : world :=
  match n with
  | O => w
  | S n => search_times rt e criteria n (Api.handleSearch rt (Some e) (Some criteria) w).2
  end.

(** The NIH API answers every search with a 2xx and a JSON body. *)
Definition nih_available (rt : runtime) : Prop :=
  ∀ p, ∃ st results,
    nih_projects_search rt p = Responded st (Nih.Data results) ∧ ok st = true.

(** The header that opens the endpoint to any origin. *)
Definition allows_any_origin (r : Response) : bool :=
  bool_decide (("Access-Control-Allow-Origin", "*") ∈ headers r).

(** The effect of a request that names [email] on the store: none, or one
    [api_change] of the record under that address. *)
Definition api_effect (rt : runtime) (email : option string)
    (kv kv' : gmap string user) : Prop :=
  kv' = kv
  ∨ ∃ e new, nonempty email = Some e ∧ kv' = <[e := new]> kv
             ∧ api_change rt e (kv !! e) new.

(** The effect of a webhook request on the store: none, or one
    [webhook_change] of an existing record. *)
Definition webhook_effect (rt : runtime) (kv kv' : gmap string user) : Prop :=
  kv' = kv
  ∨ ∃ e u new, kv !! e = Some u ∧ kv' = <[e := new]> kv ∧ webhook_change rt u new.

(** * Properties *)

Example toISOString_example :
  toISOString {| getFullYear := 2024; getMonth := 1; getDate := 9; getHours := 7;
                 getMinutes := 30; getSeconds := 0; getMilliseconds := 42 |}
  = "2024-02-09T07:30:00.042Z".
Proof. reflexivity. Qed.

(** ** Objects *)

Section objects.
Implicit Types (k : string) (v : jsval) (o : jsobj).

Lemma obj_get_delete_eq k o : obj_get k (obj_delete k o) = None.
Proof.
  induction o as [|[k' v'] o IH]; simpl; [done|].
  destruct (String.eqb k' k) eqn:E; simpl; [done|]. by rewrite E.
Qed.

Lemma obj_get_delete_ne k k' o :
  k ≠ k' → obj_get k' (obj_delete k o) = obj_get k' o.
Proof.
  intros Hne. induction o as [|[k0 v0] o IH]; simpl; [done|].
  destruct (String.eqb k0 k) eqn:E; simpl.
  - apply String.eqb_eq in E as ->.
    destruct (String.eqb k k') eqn:E'; [|done].
    by apply String.eqb_eq in E'.
  - by rewrite IH.
Qed.

Lemma obj_get_set_eq k v o : obj_get k (obj_set k v o) = Some v.
Proof.
  induction o as [|[k' v'] o IH]; simpl.
  - by rewrite String.eqb_refl.
  - destruct (String.eqb k' k) eqn:E; simpl.
    + by rewrite String.eqb_refl.
    + by rewrite E.
Qed.

Lemma obj_get_set_ne k k' v o :
  k ≠ k' → obj_get k' (obj_set k v o) = obj_get k' o.
Proof.
  intros Hne. induction o as [|[k0 v0] o IH]; simpl.
  - destruct (String.eqb k k') eqn:E; [|done]. by apply String.eqb_eq in E.
  - destruct (String.eqb k0 k) eqn:E; simpl.
    + apply String.eqb_eq in E as ->.
      destruct (String.eqb k k') eqn:E'; [|done]. by apply String.eqb_eq in E'.
    + by rewrite IH.
Qed.
End objects.

Lemma nonempty_Some (s : string) : s ≠ "" → nonempty (Some s) = Some s.
Proof.
  intros Hs. unfold nonempty. destruct (String.eqb s "") eqn:E; [|done].
  by apply String.eqb_eq in E.
Qed.

Lemma nonempty_inv (o : option string) (s : string) :
  nonempty o = Some s → o = Some s ∧ s ≠ "".
Proof.
  destruct o as [s'|]; simpl; [|done].
  destruct (String.eqb s' "") eqn:E; [done|].
  intros [= ->]. split; [done|]. intros ->. by rewrite String.eqb_refl in E.
Qed.

(** The stored record does carry the hash, and the rest-destructuring is
    what removes it. *)
Lemma user_to_obj_password_hash (u : user) :
  obj_get "password_hash" (user_to_obj u) = Some (JStr (password_hash u)).
Proof. reflexivity. Qed.

Lemma safeUserData_no_password_hash (u : user) :
  obj_get "password_hash" (safeUserData u) = None.
Proof. apply obj_get_delete_eq. Qed.

Lemma safe_account_hidden (st : Z) (pre post : jsobj) (u : user) :
  obj_get "user" pre = None →
  exposes_password_hash
    (Api.json_response st (pre ++ ("user", JObj (safeUserData u)) :: post)) = false.
Proof.
  intros Hpre. unfold exposes_password_hash, account_of. simpl.
  assert (obj_get "user" (pre ++ ("user", JObj (safeUserData u)) :: post)
          = Some (JObj (safeUserData u))) as ->.
  { induction pre as [|[k v] pre IH]; simpl in *; [done|].
    destruct (String.eqb k "user"); [done|]. by apply IH. }
  by rewrite safeUserData_no_password_hash.
Qed.

(** ** No response carries the password hash *)

Lemma error_response_hidden (st : Z) (message : string) :
  exposes_password_hash (Api.error_response st message) = false.
Proof. reflexivity. Qed.

Lemma handleRegister_hidden rt email password w :
  exposes_password_hash (Api.handleRegister rt email password w).1 = false.
Proof.
  unfold Api.handleRegister.
  destruct (nonempty email) as [e|], (nonempty password) as [p|]; try reflexivity.
  run. destruct (USERS_KV w !! e); simpl; [reflexivity|].
  by apply (safe_account_hidden 200 [("success", _); ("message", _)]).
Qed.

Lemma handleLogin_hidden rt email password w :
  exposes_password_hash (Api.handleLogin rt email password w).1 = false.
Proof.
  unfold Api.handleLogin.
  destruct (nonempty email) as [e|], (nonempty password) as [p|]; try reflexivity.
  run. destruct (USERS_KV w !! e) as [u|]; simpl; [|reflexivity].
  destruct (Api.verifyPassword rt p (password_hash u)); simpl; [|reflexivity].
  destruct (Api.new_month _ _); simpl;
    by apply (safe_account_hidden 200 [("success", _); ("message", _)]).
Qed.

Lemma handleSearch_hidden rt email criteria w :
  exposes_password_hash (Api.handleSearch rt email criteria w).1 = false.
Proof.
  unfold Api.handleSearch.
  destruct (nonempty email) as [e|], criteria as [c|]; try reflexivity.
  run. destruct (USERS_KV w !! e) as [u|]; simpl; [|reflexivity].
  destruct (Api.maxSearches u <=? monthly_searches u); simpl; [reflexivity|].
  destruct (nih_projects_search rt _) as [msg|st [msg|msg|results]]; simpl;
    try reflexivity; destruct (ok st); simpl; try reflexivity.
  destruct (Api.sendSearchResultsEmail _ _ _ _ _) as [[] w']; simpl;
    by apply (safe_account_hidden 200 [("success", _); ("message", _)]).
Qed.

Lemma handleUpgrade_hidden rt email w :
  exposes_password_hash (Api.handleUpgrade rt email w).1 = false.
Proof.
  unfold Api.handleUpgrade.
  destruct (nonempty (STRIPE_SECRET_KEY rt)), (nonempty (STRIPE_PRICE_ID rt));
    try reflexivity.
  run. destruct (stripe_checkout_sessions rt _) as [msg|st [msg|[url|]]]; simpl;
    try reflexivity; destruct (ok st); reflexivity.
Qed.

Lemma handleReset_hidden rt email w :
  exposes_password_hash (Api.handleReset rt email w).1 = false.
Proof.
  unfold Api.handleReset. destruct (nonempty email) as [e|]; [|reflexivity].
  run. destruct (USERS_KV w !! e) as [u|]; simpl; [|reflexivity].
  by apply (safe_account_hidden 200 [("success", _); ("message", _)]).
Qed.

(** C6.  Whatever the request (any method, any action, any body) and
    whatever the store holds, the account object that the response of
    [/api/search] carries under ["user"] has no [password_hash] property --
    although the stored record has one ([user_to_obj_password_hash]). *)
Theorem response_never_exposes_password_hash rt (req : Api.request) (w : world) :
  exposes_password_hash (Api.onRequest rt req w).1 = false.
Proof.
  unfold Api.onRequest.
  destruct (String.eqb (Api.method req) "OPTIONS"); [reflexivity|].
  destruct (negb (String.eqb (Api.method req) "POST")); [reflexivity|].
  destruct (Api.json req) as [b|]; [|reflexivity].
  cbv zeta.
  repeat match goal with
         | |- context [if String.eqb ?a ?s then _ else _] =>
             destruct (String.eqb a s)
         end;
    auto using handleRegister_hidden, handleLogin_hidden, handleSearch_hidden,
      handleUpgrade_hidden, handleReset_hidden.
Qed.

Example stored_record_would_expose (u : user) :
  exposes_password_hash (Api.json_response 200 [("user", JObj (user_to_obj u))]) = true.
Proof. reflexivity. Qed.

Lemma kv_writes_app (tr1 tr2 : list event) :
  kv_writes (tr1 ++ tr2) = (kv_writes tr1 ++ kv_writes tr2)%list.
Proof.
  induction tr1 as [|e tr1 IH]; simpl; [done|].
  destruct e; simpl; by rewrite ?IH.
Qed.

(** ** Registration of an existing address *)

Lemma handleRegister_existing rt (e p : string) (u : user) (w : world) :
  e ≠ "" → p ≠ "" → USERS_KV w !! e = Some u →
  Api.handleRegister rt (Some e) (Some p) w
  = (Api.error_response 400 "User already exists",
     {| USERS_KV := USERS_KV w; trace := trace w ++ [KvGet e] |}).
Proof.
  intros He Hp Hu. unfold Api.handleRegister.
  rewrite !nonempty_Some by done. run. by rewrite Hu.
Qed.

(** C7.  If the store holds an account under [e], a registration for [e]
    (with a password) answers 400 "User already exists"; the store is the
    same afterwards, so it still holds the first account, and the trace
    gains no write. *)
Theorem register_existing_rejected rt (e p : string) (u : user) (w : world) :
  e ≠ "" → p ≠ "" → USERS_KV w !! e = Some u →
  let out := Api.handleRegister rt (Some e) (Some p) w in
  out.1 = Api.error_response 400 "User already exists"
  ∧ USERS_KV out.2 = USERS_KV w
  ∧ USERS_KV out.2 !! e = Some u
  ∧ kv_writes (trace out.2) = kv_writes (trace w).
Proof.
  intros He Hp Hu. cbv zeta. rewrite (handleRegister_existing _ _ _ u) by done.
  simpl. rewrite kv_writes_app. simpl. by rewrite app_nil_r.
Qed.

Lemma register_existing_rejected_witness :
  let out := Api.handleRegister Sample.rt (Some "a@x.com") (Some "other")
               (Sample.store (Sample.account "free" 2)) in
  out.1 = Api.error_response 400 "User already exists"
  ∧ USERS_KV out.2 = USERS_KV (Sample.store (Sample.account "free" 2))
  ∧ USERS_KV out.2 !! "a@x.com" = Some (Sample.account "free" 2)
  ∧ kv_writes (trace out.2) = kv_writes (trace (Sample.store (Sample.account "free" 2))).
Proof.
  apply (register_existing_rejected Sample.rt "a@x.com" "other" (Sample.account "free" 2));
    [done | done | reflexivity].
Defined.

(** Registering twice: the first call creates the account, the second is
    rejected and leaves what the first one stored. *)
Lemma register_twice rt (e p p' : string) (w : world) :
  e ≠ "" → p ≠ "" → p' ≠ "" → USERS_KV w !! e = None →
  let first := Api.handleRegister rt (Some e) (Some p) w in
  let second := Api.handleRegister rt (Some e) (Some p') first.2 in
  status first.1 = 200
  ∧ second.1 = Api.error_response 400 "User already exists"
  ∧ USERS_KV second.2 = USERS_KV first.2.
Proof.
  intros He Hp Hp' Hfree. cbv zeta.
  assert (∃ u, USERS_KV (Api.handleRegister rt (Some e) (Some p) w).2 !! e = Some u
               ∧ status (Api.handleRegister rt (Some e) (Some p) w).1 = 200)
    as (u & Hu & Hst).
  { unfold Api.handleRegister. rewrite !nonempty_Some by done. run.
    rewrite Hfree. simpl. eexists. split; [apply lookup_insert_eq|done]. }
  rewrite (handleRegister_existing _ e p' u) by done. auto.
Qed.

(** ** Login with a wrong password *)

(** C8.  For an existing account, a login whose password does not hash to
    the stored hash fails (401 "Invalid credentials", or 400 when the
    password is empty); the store is unchanged, in particular the counter
    and the reset date of the account, and the trace gains no write. *)
Theorem login_wrong_password_no_mutation rt (e p : string) (u : user) (w : world) :
  USERS_KV w !! e = Some u →
  Api.hashPassword rt p ≠ password_hash u →
  let out := Api.handleLogin rt (Some e) (Some p) w in
  (out.1 = Api.error_response 401 "Invalid credentials"
   ∨ out.1 = Api.error_response 400 "Email and password required")
  ∧ USERS_KV out.2 = USERS_KV w
  ∧ (monthly_searches <$> USERS_KV out.2 !! e) = Some (monthly_searches u)
  ∧ (last_reset <$> USERS_KV out.2 !! e) = Some (last_reset u)
  ∧ kv_writes (trace out.2) = kv_writes (trace w).
Proof.
  intros Hu Hbad. cbv zeta. unfold Api.handleLogin.
  destruct (nonempty (Some e)) as [e'|] eqn:He;
    [|by destruct (nonempty (Some p)); simpl; rewrite Hu; auto].
  apply nonempty_inv in He as [[= <-] He].
  destruct (nonempty (Some p)) as [p'|] eqn:Hp; [|by simpl; rewrite Hu; auto].
  apply nonempty_inv in Hp as [[= <-] Hp].
  run. rewrite Hu. simpl.
  assert (Api.verifyPassword rt p (password_hash u) = false) as ->.
  { unfold Api.verifyPassword. by apply String.eqb_neq. }
  simpl. rewrite Hu, kv_writes_app. simpl. rewrite app_nil_r. auto.
Qed.

Lemma login_wrong_password_no_mutation_witness :
  let w := Sample.store (Sample.account "free" 4) in
  let out := Api.handleLogin Sample.rt (Some "a@x.com") (Some "guess") w in
  (out.1 = Api.error_response 401 "Invalid credentials"
   ∨ out.1 = Api.error_response 400 "Email and password required")
  ∧ USERS_KV out.2 = USERS_KV w
  ∧ (monthly_searches <$> USERS_KV out.2 !! "a@x.com") = Some 4
  ∧ (last_reset <$> USERS_KV out.2 !! "a@x.com") = Some (Some (Sample.date 2024 0 15))
  ∧ kv_writes (trace out.2) = kv_writes (trace w).
Proof.
  apply (login_wrong_password_no_mutation Sample.rt "a@x.com" "guess"
           (Sample.account "free" 4)); [reflexivity | done].
Defined.

(** ** The search gate *)

(** The notifier leaves the store alone and only talks to Brevo. *)
Lemma sendSearchResultsEmail_frame rt (to : string) (projects : list jsval)
    (criteria : jsobj) (w : world) :
  let out := Api.sendSearchResultsEmail rt to projects criteria w in
  USERS_KV out.2 = USERS_KV w
  ∧ ∃ evs, trace out.2 = (trace w ++ evs)%list ∧ forallb is_notifier_event evs = true.
Proof.
  cbv zeta. unfold Api.sendSearchResultsEmail.
  destruct (nonempty (BREVO_API_KEY rt)) as [key|], (nonempty (SENDER_EMAIL rt)) as [sender|];
    simpl; try (split; [done|]; exists []; by rewrite app_nil_r).
  run. destruct (brevo_account rt key) as [msg|st []]; simpl.
  - split; [done|]. by eexists [_].
  - destruct (ok st); simpl.
    + destruct (brevo_smtp_email rt sender to projects criteria) as [msg|st' txt]; simpl;
        (split; [done|]; rewrite <- app_assoc; by eexists [_; _]).
    + split; [done|]. by eexists [_].
Qed.

Lemma kv_writes_notifier (evs : list event) :
  forallb is_notifier_event evs = true → kv_writes evs = [].
Proof.
  induction evs as [|e evs IH]; simpl; [done|].
  intros [He Hevs]%andb_prop. destruct e; simpl in *; try done; by apply IH.
Qed.

(** The search, for a caller that exists and is within its quota, up to the
    reply of the NIH API. *)
Lemma handleSearch_within_quota rt (e : string) (criteria : jsobj) (u : user) (w : world) :
  e ≠ "" → USERS_KV w !! e = Some u → monthly_searches u < Api.maxSearches u →
  Api.handleSearch rt (Some e) (Some criteria) w
  = let w1 := {| USERS_KV := USERS_KV w;
                 trace := trace w ++ [KvGet e; NihSearch (Api.nihPayload u criteria)] |} in
    match nih_projects_search rt (Api.nihPayload u criteria) with
    | Rejected message => (Api.search_failed message, w1)
    | Responded st nihData =>
        if negb (ok st) then (Api.search_failed ("NIH API error: " +:+ pretty st), w1)
        else
          match nihData with
          | Nih.NotJson message | Nih.Null message => (Api.search_failed message, w1)
          | Nih.Data results =>
              let projects := default [] results in
              let userData := Api.count_search u in
              let w2 := {| USERS_KV := <[e := userData]> (USERS_KV w);
                           trace := trace w ++ [KvGet e; NihSearch (Api.nihPayload u criteria);
                                                KvPut e userData] |} in
              let sent := Api.sendSearchResultsEmail rt e projects
                            (Api.searchCriteria criteria) w2 in
              let results_count := Z.of_nat (length projects) in
              (if negb sent.1 then
                 Api.json_response 200
                   [ ("success", JBool true);
                     ("message", JStr ("Search completed! " +:+ pretty results_count +:+
                        " results found (email delivery failed - please check your email configuration)"));
                     ("user", JObj (safeUserData userData));
                     ("results_count", JNum results_count);
                     ("warning", JStr "Email delivery failed") ]
               else
                 Api.json_response 200
                   [ ("success", JBool true);
                     ("message", JStr ("Search completed! " +:+ pretty results_count +:+
                        " results sent to your email"));
                     ("user", JObj (safeUserData userData));
                     ("results_count", JNum results_count) ],
               sent.2)
          end
    end.
Proof.
  intros He Hu Hlt. unfold Api.handleSearch. rewrite nonempty_Some by done.
  run. rewrite Hu. simpl.
  assert ((Api.maxSearches u <=? monthly_searches u) = false) as -> by lia.
  destruct (nih_projects_search rt _) as [msg|st nihData]; simpl;
    [by rewrite <- app_assoc|].
  destruct (ok st); simpl; [|by rewrite <- app_assoc].
  destruct nihData as [msg|msg|results]; simpl; try by rewrite <- app_assoc.
  rewrite <- !app_assoc. simpl.
  by destruct (Api.sendSearchResultsEmail _ _ _ _ _) as [[] w'].
Qed.

Lemma handleSearch_over_quota rt (e : string) (criteria : jsobj) (u : user) (w : world) :
  e ≠ "" → USERS_KV w !! e = Some u → Api.maxSearches u ≤ monthly_searches u →
  Api.handleSearch rt (Some e) (Some criteria) w
  = (Api.error_response 429
       ("Search limit reached. " +:+
        (if Api.isFreeTier u then "Free users get 5 searches/month"
         else "Pro users get 15 searches/month") +:+ ". Upgrade for more!"),
     {| USERS_KV := USERS_KV w; trace := trace w ++ [KvGet e] |}).
Proof.
  intros He Hu Hge. unfold Api.handleSearch. rewrite nonempty_Some by done.
  run. rewrite Hu. simpl.
  by assert ((Api.maxSearches u <=? monthly_searches u) = true) as -> by lia.
Qed.

(** Within its quota, a search is never answered 429. *)
Lemma handleSearch_within_quota_status rt (e : string) (criteria : jsobj) (u : user) (w : world) :
  e ≠ "" → USERS_KV w !! e = Some u → monthly_searches u < Api.maxSearches u →
  status (Api.handleSearch rt (Some e) (Some criteria) w).1 = 500
  ∨ status (Api.handleSearch rt (Some e) (Some criteria) w).1 = 200.
Proof.
  intros He Hu Hlt. rewrite (handleSearch_within_quota _ _ _ u) by done. cbv zeta.
  destruct (nih_projects_search rt _) as [msg|st [msg|msg|results]]; simpl; auto;
    destruct (ok st); simpl; auto.
  destruct (Api.sendSearchResultsEmail _ _ _ _ _).1; simpl; auto.
Qed.

(** C2.  For an existing account, the search is answered 429 (quota
    exceeded) exactly when the stored counter has reached the limit of the
    account's tier, 15 for the status "active" and 5 otherwise; a rejected
    search leaves the store as it was and writes nothing. *)
Theorem search_rejected_iff_quota_reached rt (e : string) (criteria : jsobj)
    (u : user) (w : world) :
  e ≠ "" → USERS_KV w !! e = Some u →
  let limit := if String.eqb (subscription_status u) "active" then 15 else 5 in
  let out := Api.handleSearch rt (Some e) (Some criteria) w in
  (status out.1 = 429 ↔ limit ≤ monthly_searches u)
  ∧ (status out.1 = 429 →
       USERS_KV out.2 = USERS_KV w
       ∧ USERS_KV out.2 !! e = Some u
       ∧ kv_writes (trace out.2) = kv_writes (trace w)).
Proof.
  intros He Hu. cbv zeta.
  assert (Api.maxSearches u = if String.eqb (subscription_status u) "active" then 15 else 5)
    as Hmax.
  { unfold Api.maxSearches, Api.isFreeTier.
    by destruct (String.eqb (subscription_status u) "active"). }
  rewrite <- Hmax.
  destruct (Z_lt_le_dec (monthly_searches u) (Api.maxSearches u)) as [Hlt|Hge].
  - destruct (handleSearch_within_quota_status rt e criteria u w He Hu Hlt) as [-> | ->].
    + split; [split; [done|lia] | done].
    + split; [split; [done|lia] | done].
  - rewrite (handleSearch_over_quota _ _ _ u) by done. simpl.
    split; [done|]. intros _. rewrite kv_writes_app. simpl. by rewrite app_nil_r.
Qed.

Lemma search_rejected_iff_quota_reached_witness :
  let u := Sample.account "free" 5 in
  let out := Api.handleSearch Sample.rt (Some "a@x.com") (Some Sample.cancer) (Sample.store u) in
  (status out.1 = 429 ↔ 5 ≤ 5)
  ∧ (status out.1 = 429 →
       USERS_KV out.2 = USERS_KV (Sample.store u)
       ∧ USERS_KV out.2 !! "a@x.com" = Some u
       ∧ kv_writes (trace out.2) = kv_writes (trace (Sample.store u))).
Proof.
  apply (search_rejected_iff_quota_reached Sample.rt "a@x.com" Sample.cancer
           (Sample.account "free" 5)); [done | reflexivity].
Defined.

(** C3.  For a search that reaches the NIH API (the account exists and is
    within its quota): if the call fails, by a transport error or by a
    status outside 2xx, the answer is 500 "Search failed: ..." and the store
    is unchanged, with no write; and the stored counter differs afterwards
    only if the API answered 2xx with a JSON body, whose result list may be
    absent or empty, in which case it went up by exactly one. *)
Theorem search_upstream_failure_spends_nothing rt (e : string) (criteria : jsobj)
    (u : user) (w : world) :
  e ≠ "" → USERS_KV w !! e = Some u → monthly_searches u < Api.maxSearches u →
  let reply := nih_projects_search rt (Api.nihPayload u criteria) in
  let out := Api.handleSearch rt (Some e) (Some criteria) w in
  (∀ message, upstream_failure reply = Some message →
     out.1 = Api.error_response 500 ("Search failed: " +:+ message)
     ∧ USERS_KV out.2 = USERS_KV w
     ∧ (monthly_searches <$> USERS_KV out.2 !! e) = Some (monthly_searches u)
     ∧ kv_writes (trace out.2) = kv_writes (trace w))
  ∧ ((monthly_searches <$> USERS_KV out.2 !! e) ≠ Some (monthly_searches u) →
     ∃ st results,
       reply = Responded st (Nih.Data results) ∧ ok st = true
       ∧ (monthly_searches <$> USERS_KV out.2 !! e) = Some (monthly_searches u + 1)).
Proof.
  intros He Hu Hlt. cbv zeta. rewrite (handleSearch_within_quota _ _ _ u) by done.
  cbv zeta.
  destruct (nih_projects_search rt _) as [msg|st nihData]; simpl.
  { rewrite Hu, kv_writes_app. simpl. rewrite app_nil_r.
    split; [by intros ? [= <-]|done]. }
  destruct (ok st) eqn:Hok; simpl.
  2:{ rewrite Hu, kv_writes_app. simpl. rewrite app_nil_r.
      split; [by intros ? [= <-]|done]. }
  split; [done|].
  destruct nihData as [msg|msg|results]; simpl; try by rewrite Hu.
  intros _. exists st, results. split; [done|]. split; [done|].
  destruct (sendSearchResultsEmail_frame rt e (default [] results)
              (Api.searchCriteria criteria)
              {| USERS_KV := <[e := Api.count_search u]> (USERS_KV w);
                 trace := trace w ++ [KvGet e; NihSearch (Api.nihPayload u criteria);
                                      KvPut e (Api.count_search u)] |}) as [-> _].
  simpl. by rewrite lookup_insert_eq.
Qed.

Lemma search_upstream_failure_spends_nothing_witness :
  let rt := Sample.platform (Responded 503 (Nih.NotJson "")) (Responded 201 "") in
  let u := Sample.account "free" 2 in
  let out := Api.handleSearch rt (Some "a@x.com") (Some Sample.cancer) (Sample.store u) in
  out.1 = Api.error_response 500 "Search failed: NIH API error: 503"
  ∧ USERS_KV out.2 = USERS_KV (Sample.store u)
  ∧ (monthly_searches <$> USERS_KV out.2 !! "a@x.com") = Some 2
  ∧ kv_writes (trace out.2) = kv_writes (trace (Sample.store u)).
Proof.
  cbv zeta.
  apply (search_upstream_failure_spends_nothing
           (Sample.platform (Responded 503 (Nih.NotJson "")) (Responded 201 ""))
           "a@x.com" Sample.cancer (Sample.account "free" 2)
           (Sample.store (Sample.account "free" 2))); [done | reflexivity | reflexivity | reflexivity].
Defined.

(** C5.  When the NIH API answers 2xx with a JSON body, the search stores
    the account with the counter raised by one, and only then runs the
    notifier: the notifier starts from a world that already holds the new
    record and whose trace ends with the write, and it adds nothing but
    calls to Brevo.  The answer is a 200 with [success: true] whether or not
    the notifier succeeds, the store keeps the raised counter, and a failed
    delivery shows as the [warning] property of the answer. *)
Theorem search_counts_before_notifying rt (e : string) (criteria : jsobj)
    (u : user) (w : world) (st : Z) (results : option (list jsval)) :
  e ≠ "" → USERS_KV w !! e = Some u → monthly_searches u < Api.maxSearches u →
  nih_projects_search rt (Api.nihPayload u criteria) = Responded st (Nih.Data results) →
  ok st = true →
  let userData := Api.count_search u in
  let persisted :=
    {| USERS_KV := <[e := userData]> (USERS_KV w);
       trace := trace w ++ [KvGet e; NihSearch (Api.nihPayload u criteria);
                            KvPut e userData] |} in
  let sent := Api.sendSearchResultsEmail rt e (default [] results)
                (Api.searchCriteria criteria) persisted in
  let out := Api.handleSearch rt (Some e) (Some criteria) w in
  monthly_searches userData = monthly_searches u + 1
  ∧ out.2 = sent.2
  ∧ (∃ evs, trace out.2 = (trace persisted ++ evs)%list
            ∧ forallb is_notifier_event evs = true)
  ∧ USERS_KV out.2 !! e = Some userData
  ∧ status out.1 = 200
  ∧ (∃ o, body out.1 = Json o
          ∧ obj_get "success" o = Some (JBool true)
          ∧ obj_get "user" o = Some (JObj (safeUserData userData))
          ∧ obj_get "warning" o
            = if sent.1 then None else Some (JStr "Email delivery failed")).
Proof.
  intros He Hu Hlt Hreply Hok. cbv zeta.
  rewrite (handleSearch_within_quota _ _ _ u) by done. cbv zeta.
  rewrite Hreply, Hok. simpl.
  match goal with
  | |- context [Api.sendSearchResultsEmail rt e ?p ?c ?w1] =>
      destruct (sendSearchResultsEmail_frame rt e p c w1) as (Hkv & evs & Htr & Hevs);
      destruct (Api.sendSearchResultsEmail rt e p c w1) as [sent w2] eqn:Hsent
  end.
  simpl in *. split; [done|]. split; [done|].
  split; [by exists evs|]. rewrite Hkv, lookup_insert_eq. split; [done|].
  destruct sent; simpl; (split; [done|]); eexists; (split; [done|]); done.
Qed.

Lemma search_counts_before_notifying_witness :
  let rt := Sample.platform Sample.two_results (Rejected "connection reset") in
  let u := Sample.account "free" 2 in
  let out := Api.handleSearch rt (Some "a@x.com") (Some Sample.cancer) (Sample.store u) in
  USERS_KV out.2 !! "a@x.com" = Some (Sample.account "free" 3)
  ∧ status out.1 = 200
  ∧ (∃ o, body out.1 = Json o
          ∧ obj_get "success" o = Some (JBool true)
          ∧ obj_get "user" o = Some (JObj (safeUserData (Sample.account "free" 3)))
          ∧ obj_get "warning" o = Some (JStr "Email delivery failed")).
Proof.
  cbv zeta.
  apply (search_counts_before_notifying
           (Sample.platform Sample.two_results (Rejected "connection reset"))
           "a@x.com" Sample.cancer (Sample.account "free" 2)
           (Sample.store (Sample.account "free" 2)) 200
           (Some [JObj [("fy", JNum 2023)]; JObj [("fy", JNum 2024)]]));
    [done | reflexivity | reflexivity | reflexivity | reflexivity].
Defined.

(** ** The request sent to the NIH API *)

Lemma nih_requests_app (tr1 tr2 : list event) :
  nih_requests (tr1 ++ tr2) = (nih_requests tr1 ++ nih_requests tr2)%list.
Proof.
  induction tr1 as [|e tr1 IH]; simpl; [done|].
  destruct e; simpl; by rewrite ?IH.
Qed.

Lemma nih_requests_notifier (evs : list event) :
  forallb is_notifier_event evs = true → nih_requests evs = [].
Proof.
  induction evs as [|e evs IH]; simpl; [done|].
  intros [He Hevs]%andb_prop. destruct e; simpl in *; try done; by apply IH.
Qed.

(** The rewrite, for a truthy free text. *)
Lemma searchCriteria_truthy (criteria : jsobj) (text : jsval) :
  obj_get "text_search" criteria = Some text → truthy text = true →
  obj_get "text_search" (Api.searchCriteria criteria) = None
  ∧ obj_get "advanced_text_search" (Api.searchCriteria criteria)
    = Some (advanced_text_search text)
  ∧ ∀ k, k ≠ "text_search" → k ≠ "advanced_text_search" →
         obj_get k (Api.searchCriteria criteria) = obj_get k criteria.
Proof.
  intros Hget Htruthy. unfold Api.searchCriteria. rewrite Hget, Htruthy.
  split; [apply obj_get_delete_eq|]. split.
  - rewrite obj_get_delete_ne by done. apply obj_get_set_eq.
  - intros k Hk1 Hk2. rewrite obj_get_delete_ne by done. by rewrite obj_get_set_ne.
Qed.

(** Without a truthy free text the criteria go out as they came in. *)
Lemma searchCriteria_falsy (criteria : jsobj) :
  truthy_opt (obj_get "text_search" criteria) = false →
  Api.searchCriteria criteria = criteria.
Proof.
  unfold Api.searchCriteria. destruct (obj_get "text_search" criteria) as [text|]; simpl;
    [by intros ->|done].
Qed.

(** A [search] request posts exactly one payload to the NIH API when the
    caller exists and is within quota. *)
Lemma onRequest_search_payload rt (b : Body.t) (e : string) (criteria : jsobj)
    (u : user) (w : world) :
  Body.action b = Some "search" → Body.email b = Some e →
  Body.criteria b = Some criteria →
  e ≠ "" → USERS_KV w !! e = Some u → monthly_searches u < Api.maxSearches u →
  nih_requests (trace (Api.onRequest rt {| Api.method := "POST"; Api.json := Some b |} w).2)
  = (nih_requests (trace w) ++ [Api.nihPayload u criteria])%list.
Proof.
  intros Hact Hemail Hcrit He Hu Hlt. unfold Api.onRequest. simpl.
  rewrite Hact, Hemail, Hcrit. simpl.
  rewrite (handleSearch_within_quota _ _ _ u) by done. cbv zeta.
  destruct (nih_projects_search rt _) as [msg|st nihData]; simpl;
    [by rewrite nih_requests_app|].
  destruct (ok st); simpl; [|by rewrite nih_requests_app].
  destruct nihData as [msg|msg|results]; simpl; try by rewrite nih_requests_app.
  match goal with
  | |- context [Api.sendSearchResultsEmail rt e ?p ?c ?w1] =>
      destruct (sendSearchResultsEmail_frame rt e p c w1) as (_ & evs & -> & Hevs)
  end.
  simpl. rewrite !nih_requests_app, (nih_requests_notifier evs) by done.
  simpl. by rewrite app_nil_r.
Qed.

(** An empty free text is a property of the criteria, but it is falsy: the
    gate sends it on as it is and builds no clause. *)
Lemma empty_free_text_not_rewritten :
  let criteria := [("text_search", JStr ""); ("fiscal_years", JArr [JNum 2024])] in
  let out := Api.onRequest Sample.rt
               {| Api.method := "POST"; Api.json := Some (search_body "a@x.com" criteria) |}
               (Sample.store (Sample.account "free" 0)) in
  ∃ p, nih_requests (trace out.2) = [p]
       ∧ Nih.criteria p = criteria
       ∧ ¬ free_text_always_rewritten criteria p.
Proof.
  cbv zeta. eexists. split; [reflexivity|]. split; [reflexivity|].
  intros H. by destruct (H (JStr "") eq_refl) as [? _].
Qed.

(** C9 (amended).  A [search] request of an existing caller within quota
    posts one payload to the NIH API.  Whatever paging and sorting fields
    the request body carries, the payload has [limit] 10 for the status
    "active" and 3 otherwise, [offset] 0 and the sort [project_start_date]
    descending.  If the criteria have a truthy (for a string: non-empty)
    [text_search], the payload's criteria have no [text_search], have the
    [advanced_text_search] clause with operator "and" over
    title/terms/abstract whose text is [String(text_search)] -- the text
    itself when it is a string -- and agree with the caller's criteria on
    every other property. *)
Theorem gated_search_payload rt (b : Body.t) (e : string) (criteria : jsobj)
    (u : user) (w : world) :
  Body.action b = Some "search" → Body.email b = Some e →
  Body.criteria b = Some criteria →
  e ≠ "" → USERS_KV w !! e = Some u → monthly_searches u < Api.maxSearches u →
  let out := Api.onRequest rt {| Api.method := "POST"; Api.json := Some b |} w in
  ∃ p, nih_requests (trace out.2) = (nih_requests (trace w) ++ [p])%list
    ∧ Nih.limit p = (if String.eqb (subscription_status u) "active" then 10 else 3)
    ∧ Nih.offset p = 0
    ∧ Nih.sort_field p = "project_start_date"
    ∧ Nih.sort_order p = "desc"
    ∧ ∀ text, obj_get "text_search" criteria = Some text → truthy text = true →
        obj_get "text_search" (Nih.criteria p) = None
        ∧ obj_get "advanced_text_search" (Nih.criteria p)
          = Some (JObj [ ("operator", JStr "and");
                         ("search_field", JStr "projecttitle,terms,abstracttext");
                         ("search_text", JStr (js_String text)) ])
        ∧ (∀ s, text = JStr s → js_String text = s)
        ∧ (∀ k, k ≠ "text_search" → k ≠ "advanced_text_search" →
                obj_get k (Nih.criteria p) = obj_get k criteria).
Proof.
  intros Hact Hemail Hcrit He Hu Hlt. cbv zeta.
  exists (Api.nihPayload u criteria).
  split; [by apply (onRequest_search_payload rt b e)|]. simpl.
  split. { unfold Api.maxAbstracts, Api.isFreeTier.
           by destruct (String.eqb (subscription_status u) "active"). }
  do 3 (split; [done|]).
  intros text Hget Htruthy.
  destruct (searchCriteria_truthy criteria text Hget Htruthy) as (H1 & H2 & H3).
  split; [done|]. split; [done|]. split; [by intros s ->|done].
Qed.

Lemma gated_search_payload_witness :
  let b := {| Body.action := Some "search";
              Body.email := Some "a@x.com";
              Body.password := None;
              Body.criteria := Some Sample.cancer;
              Body.sort_field := Some (JStr "award_amount");
              Body.sort_order := Some (JStr "asc");
              Body.offset := Some (JNum 50);
              Body.limit := Some (JNum 100) |} in
  let out := Api.onRequest Sample.rt {| Api.method := "POST"; Api.json := Some b |}
               (Sample.store (Sample.account "active" 14)) in
  ∃ p, nih_requests (trace out.2) = [p]
    ∧ Nih.limit p = 10 ∧ Nih.offset p = 0
    ∧ Nih.sort_field p = "project_start_date" ∧ Nih.sort_order p = "desc"
    ∧ obj_get "text_search" (Nih.criteria p) = None
    ∧ obj_get "advanced_text_search" (Nih.criteria p)
      = Some (JObj [ ("operator", JStr "and");
                     ("search_field", JStr "projecttitle,terms,abstracttext");
                     ("search_text", JStr "cancer") ])
    ∧ obj_get "fiscal_years" (Nih.criteria p) = Some (JArr [JNum 2024]).
Proof.
  cbv zeta.
  destruct (gated_search_payload Sample.rt
              {| Body.action := Some "search";
                 Body.email := Some "a@x.com";
                 Body.password := None;
                 Body.criteria := Some Sample.cancer;
                 Body.sort_field := Some (JStr "award_amount");
                 Body.sort_order := Some (JStr "asc");
                 Body.offset := Some (JNum 50);
                 Body.limit := Some (JNum 100) |}
              "a@x.com" Sample.cancer (Sample.account "active" 14)
              (Sample.store (Sample.account "active" 14))
              eq_refl eq_refl eq_refl ltac:(done) eq_refl eq_refl)
    as (p & Hreq & Hlimit & Hoffset & Hfield & Horder & Htext).
  destruct (Htext (JStr "cancer") eq_refl eq_refl) as (Hgone & Hclause & _ & Hrest).
  exists p. repeat (split; [done|]). by rewrite Hrest.
Defined.

(** ** The payment webhook *)

Lemma apply_confirmation_unfold rt session (kv : gmap string user) :
  apply_confirmation rt session kv
  = match nonempty (Webhook.customerEmail session) with
    | None => kv
    | Some e =>
        match kv !! e with
        | None => kv
        | Some u => <[e := Webhook.activate (now rt) session u]> kv
        end
    end.
Proof.
  unfold apply_confirmation, Webhook.handleCheckoutCompleted.
  destruct (nonempty _) as [e|]; [|done]. run. by destruct (kv !! e).
Qed.

Lemma activate_activate (t1 t2 : Date) session (u : user) :
  Webhook.activate t2 session (Webhook.activate t1 session u)
  = Webhook.activate t2 session u.
Proof. reflexivity. Qed.

(** A redelivery on the next day: the stored [upgraded_at] moves. *)
Lemma redelivered_confirmation_moves_upgraded_at :
  let first := Sample.rt in
  let second := {| now := Sample.date 2024 1 11;
                   sha256_hex := sha256_hex first;
                   BREVO_API_KEY := BREVO_API_KEY first;
                   SENDER_EMAIL := SENDER_EMAIL first;
                   STRIPE_SECRET_KEY := STRIPE_SECRET_KEY first;
                   STRIPE_PRICE_ID := STRIPE_PRICE_ID first;
                   nih_projects_search := nih_projects_search first;
                   brevo_account := brevo_account first;
                   brevo_smtp_email := brevo_smtp_email first;
                   stripe_checkout_sessions := stripe_checkout_sessions first |} in
  ¬ confirmation_idempotent first second (session_of "a@x.com")
      {[ "a@x.com" := Sample.account "free" 2 ]}.
Proof.
  cbv zeta. unfold confirmation_idempotent. intros H.
  apply (f_equal (λ kv : gmap string user, upgraded_at <$> kv !! "a@x.com")) in H.
  vm_compute in H. discriminate H.
Qed.

(** C4 (amended).  Applying the same checkout confirmation twice gives the
    store that one application at the time of the second gives; and it
    agrees with the store after the first application on every account
    and every field other than [upgraded_at]: the status "active" and the
    recorded Stripe ids are the same. *)
Theorem confirmation_idempotent_up_to_upgraded_at (first second : runtime)
    (session : Webhook.stripe_object) (kv : gmap string user) :
  apply_confirmation second session (apply_confirmation first session kv)
  = apply_confirmation second session kv
  ∧ without_upgraded_at <$> apply_confirmation second session (apply_confirmation first session kv)
    = without_upgraded_at <$> apply_confirmation first session kv.
Proof.
  rewrite !apply_confirmation_unfold.
  destruct (nonempty (Webhook.customerEmail session)) as [e|]; [|done].
  destruct (kv !! e) as [u|] eqn:Hu; [|by rewrite Hu].
  rewrite lookup_insert_eq, insert_insert_eq, activate_activate.
  split; [done|]. by rewrite !fmap_insert.
Qed.

(** On one and the same date the confirmation is idempotent outright. *)
Lemma confirmation_idempotent_same_date (first second : runtime)
    (session : Webhook.stripe_object) (kv : gmap string user) :
  now first = now second → confirmation_idempotent first second session kv.
Proof.
  intros Hnow. unfold confirmation_idempotent. rewrite !apply_confirmation_unfold.
  destruct (nonempty (Webhook.customerEmail session)) as [e|]; [|done].
  destruct (kv !! e) as [u|] eqn:Hu; [|by rewrite Hu].
  by rewrite lookup_insert_eq, insert_insert_eq, activate_activate, Hnow.
Qed.

(** What one application stores for an existing account. *)
Lemma confirmation_activates rt (session : Webhook.stripe_object) (e : string)
    (u : user) (kv : gmap string user) :
  nonempty (Webhook.customerEmail session) = Some e → kv !! e = Some u →
  apply_confirmation rt session kv !! e = Some (Webhook.activate (now rt) session u).
Proof.
  intros He Hu. rewrite apply_confirmation_unfold, He, Hu. apply lookup_insert_eq.
Qed.

(** C10.  The webhook gives the same answer and the same world for two
    requests that differ only in the Stripe-Signature header, present or
    not; and for any signature, a POST whose body is a
    [checkout.session.completed] event naming the address of an existing
    account is acknowledged and leaves that account with the status
    "active". *)
Theorem webhook_ignores_signature rt (method : string) (sig1 sig2 : option string)
    (text : option Webhook.payload) (w : world) :
  Webhook.onRequest rt
    {| Webhook.method := method; Webhook.stripe_signature := sig1; Webhook.text := text |} w
  = Webhook.onRequest rt
      {| Webhook.method := method; Webhook.stripe_signature := sig2; Webhook.text := text |} w
  ∧ ∀ (session : Webhook.stripe_object) (e : string) (u : user),
      method = "POST" →
      text = Some {| Webhook.type := Some "checkout.session.completed";
                     Webhook.data := Webhook.Object session |} →
      Webhook.customerEmail session = Some e → e ≠ "" →
      USERS_KV w !! e = Some u →
      let out := Webhook.onRequest rt
                   {| Webhook.method := method; Webhook.stripe_signature := sig1;
                      Webhook.text := text |} w in
      out.1 = Webhook.received
      ∧ USERS_KV out.2 !! e = Some (Webhook.activate (now rt) session u)
      ∧ (subscription_status <$> USERS_KV out.2 !! e) = Some "active".
Proof.
  split; [reflexivity|].
  intros session e u -> -> He Hne Hu. cbv zeta.
  unfold Webhook.onRequest, Webhook.on_object, Webhook.handleCheckoutCompleted. simpl.
  rewrite He, nonempty_Some by done. run. rewrite Hu. simpl.
  by rewrite lookup_insert_eq.
Qed.

Lemma webhook_ignores_signature_witness :
  let body := Some {| Webhook.type := Some "checkout.session.completed";
                      Webhook.data := Webhook.Object (session_of "a@x.com") |} in
  let forged := {| Webhook.method := "POST"; Webhook.stripe_signature := None;
                   Webhook.text := body |} in
  let signed := {| Webhook.method := "POST";
                   Webhook.stripe_signature := Some "t=1,v1=5257a869";
                   Webhook.text := body |} in
  let w := Sample.store (Sample.account "free" 2) in
  Webhook.onRequest Sample.rt forged w = Webhook.onRequest Sample.rt signed w
  ∧ (Webhook.onRequest Sample.rt forged w).1 = Webhook.received
  ∧ (subscription_status <$> USERS_KV (Webhook.onRequest Sample.rt forged w).2 !! "a@x.com")
    = Some "active".
Proof.
  cbv zeta.
  destruct (webhook_ignores_signature Sample.rt "POST" None (Some "t=1,v1=5257a869")
              (Some {| Webhook.type := Some "checkout.session.completed";
                       Webhook.data := Webhook.Object (session_of "a@x.com") |})
              (Sample.store (Sample.account "free" 2))) as [Hsame Hactive].
  destruct (Hactive (session_of "a@x.com") "a@x.com" (Sample.account "free" 2)
              eq_refl eq_refl eq_refl ltac:(done) eq_refl) as (Hack & _ & Hstatus).
  split; [exact Hsame|]. split; [exact Hack | exact Hstatus].
Defined.

(** ** The monthly reset, in the search *)

(** C1.  The platform's date is 10 February 2024 and the account was last
    reset on 15 January 2024.  [handleLogin] resets such an account, and
    [handleSearch] does not: with the counter at the limit the search is
    refused and nothing is stored, and with the counter at 2 the search
    succeeds and stores 3, with the reset date of January. *)
Theorem search_in_new_month_keeps_counter :
  let january := Sample.date 2024 0 15 in
  let search (n : Z) :=
    Api.handleSearch Sample.rt (Some "a@x.com") (Some Sample.cancer)
      (Sample.store (Sample.account "free" n)) in
  let login (n : Z) :=
    Api.handleLogin Sample.rt (Some "a@x.com") (Some "pw")
      (Sample.store (Sample.account "free" n)) in
  Api.new_month (now Sample.rt) january = true
  ∧ status (search 5).1 = 429
  ∧ USERS_KV (search 5).2 !! "a@x.com" = Some (Sample.account "free" 5)
  ∧ status (search 2).1 = 200
  ∧ (monthly_searches <$> USERS_KV (search 2).2 !! "a@x.com") = Some 3
  ∧ (last_reset <$> USERS_KV (search 2).2 !! "a@x.com") = Some (Some january)
  ∧ status (login 5).1 = 200
  ∧ (monthly_searches <$> USERS_KV (login 5).2 !! "a@x.com") = Some 0
  ∧ (last_reset <$> USERS_KV (login 5).2 !! "a@x.com") = Some (Some (now Sample.rt)).
Proof. cbv zeta. repeat split; vm_compute; reflexivity. Qed.

(** ** What a request can do to the store *)

Lemma handleRegister_effect rt email password w :
  api_effect rt email (USERS_KV w) (USERS_KV (Api.handleRegister rt email password w).2).
Proof.
  unfold Api.handleRegister.
  destruct (nonempty email) as [e|] eqn:He; [|by left].
  destruct (nonempty password) as [p|] eqn:Hp; [|by left].
  apply nonempty_inv in Hp as [_ Hp]. run.
  destruct (USERS_KV w !! e) eqn:Hu; simpl; [by left|].
  right. exists e, (fresh_account rt e p). rewrite Hu. simpl. eauto.
Qed.

Lemma handleLogin_effect rt email password w :
  api_effect rt email (USERS_KV w) (USERS_KV (Api.handleLogin rt email password w).2).
Proof.
  unfold Api.handleLogin.
  destruct (nonempty email) as [e|] eqn:He; [|by left].
  destruct (nonempty password) as [p|]; [|by left]. run.
  destruct (USERS_KV w !! e) as [u|] eqn:Hu; simpl; [|by left].
  destruct (Api.verifyPassword rt p (password_hash u)); simpl; [|by left].
  destruct (Api.new_month _ _); simpl; [|by left].
  right. exists e, (Api.reset_counter (now rt) u). rewrite Hu. simpl. eauto.
Qed.

Lemma handleSearch_effect rt email criteria w :
  api_effect rt email (USERS_KV w) (USERS_KV (Api.handleSearch rt email criteria w).2).
Proof.
  unfold Api.handleSearch.
  destruct (nonempty email) as [e|] eqn:He; [|by left].
  destruct criteria as [c|]; [|by left]. run.
  destruct (USERS_KV w !! e) as [u|] eqn:Hu; simpl; [|by left].
  destruct (Api.maxSearches u <=? monthly_searches u) eqn:Hq; simpl; [by left|].
  destruct (nih_projects_search rt _) as [msg|st nihData]; simpl; [by left|].
  destruct (ok st); simpl; [|by left].
  destruct nihData as [msg|msg|results]; simpl; try by left.
  match goal with
  | |- context [Api.sendSearchResultsEmail rt e ?p ?c ?w1] =>
      destruct (sendSearchResultsEmail_frame rt e p c w1) as [Hkv _];
      destruct (Api.sendSearchResultsEmail rt e p c w1) as [sent w2]
  end.
  simpl in *. right. exists e, (Api.count_search u). rewrite Hu. simpl.
  split; [done|]. split; [by destruct sent|]. left. split; [done|lia].
Qed.

Lemma handleUpgrade_effect rt email w :
  USERS_KV (Api.handleUpgrade rt email w).2 = USERS_KV w
  ∧ kv_writes (trace (Api.handleUpgrade rt email w).2) = kv_writes (trace w).
Proof.
  unfold Api.handleUpgrade.
  destruct (nonempty (STRIPE_SECRET_KEY rt)) as [s|],
    (nonempty (STRIPE_PRICE_ID rt)) as [s0|]; try done.
  run.
  assert (kv_writes (trace w ++ [StripeCheckoutSession s
            [ ("payment_method_types[]", "card"); ("mode", "subscription");
              ("line_items[0][price]", s0); ("line_items[0][quantity]", "1");
              ("customer_email", default "undefined" email);
              ("success_url", "http://localhost:8788/?success=true");
              ("cancel_url", "http://localhost:8788/?cancelled=true");
              ("metadata[user_email]", default "undefined" email) ]])
          = kv_writes (trace w)) as Hw.
  { rewrite kv_writes_app. simpl. by rewrite app_nil_r. }
  destruct (stripe_checkout_sessions rt _) as [msg|st [msg|url]]; simpl;
    try done; by destruct (ok st).
Qed.

Lemma handleReset_effect rt email w :
  api_effect rt email (USERS_KV w) (USERS_KV (Api.handleReset rt email w).2).
Proof.
  unfold Api.handleReset.
  destruct (nonempty email) as [e|] eqn:He; [|by left]. run.
  destruct (USERS_KV w !! e) as [u|] eqn:Hu; simpl; [|by left].
  right. exists e, (Api.reset_counter (now rt) u). rewrite Hu. simpl. eauto.
Qed.

Lemma onRequest_effect rt (req : Api.request) (w : world) :
  USERS_KV (Api.onRequest rt req w).2 = USERS_KV w
  ∨ ∃ e new, named_email req = Some e
             ∧ USERS_KV (Api.onRequest rt req w).2 = <[e := new]> (USERS_KV w)
             ∧ api_change rt e (USERS_KV w !! e) new.
Proof.
  unfold Api.onRequest, named_email.
  destruct (String.eqb (Api.method req) "OPTIONS"); [by left|].
  destruct (negb (String.eqb (Api.method req) "POST")); [by left|].
  destruct (Api.json req) as [b|]; [|by left].
  cbv zeta.
  repeat match goal with
         | |- context [if String.eqb ?a ?s then _ else _] =>
             destruct (String.eqb a s)
         end;
    first [ apply handleRegister_effect | apply handleLogin_effect
          | apply handleSearch_effect | apply handleReset_effect
          | left; apply handleUpgrade_effect | by left ].
Qed.

(** The fields that [count_search] and [reset_counter] leave alone. *)
Lemma api_change_existing rt (e : string) (u new : user) :
  api_change rt e (Some u) new →
  email new = email u ∧ password_hash new = password_hash u
  ∧ created_at new = created_at u
  ∧ subscription_status new = subscription_status u
  ∧ stripe_customer_id new = stripe_customer_id u
  ∧ subscription_id new = subscription_id u
  ∧ upgraded_at new = upgraded_at u ∧ last_payment new = last_payment u.
Proof. intros [[-> _] | ->]; done. Qed.

Lemma maxSearches_same_status (u u' : user) :
  subscription_status u' = subscription_status u → Api.maxSearches u' = Api.maxSearches u.
Proof. unfold Api.maxSearches, Api.isFreeTier. by intros ->. Qed.

Lemma maxSearches_values (u : user) : Api.maxSearches u = 5 ∨ Api.maxSearches u = 15.
Proof. unfold Api.maxSearches. destruct (Api.isFreeTier u); auto. Qed.

Lemma sample_keyed_by_email (u : user) :
  email u = "a@x.com" → keyed_by_email (USERS_KV (Sample.store u)).
Proof.
  intros He k u' Hl. simpl in Hl. by apply lookup_singleton_Some in Hl as [<- <-].
Qed.

Lemma sample_within_limits (u : user) :
  0 ≤ monthly_searches u ≤ Api.maxSearches u → within_limits (USERS_KV (Sample.store u)).
Proof.
  intros Hu k u' Hl. simpl in Hl. by apply lookup_singleton_Some in Hl as [<- <-].
Qed.



(** X2.  No request to [/api/search] deletes an account or changes its
    address, password hash, creation date, subscription status or payment
    fields: of an existing record it can change only the counter and the
    reset date. *)
Theorem api_request_preserves_account rt (req : Api.request) (w : world)
    (k : string) (u : user) :
  USERS_KV w !! k = Some u →
  ∃ u', USERS_KV (Api.onRequest rt req w).2 !! k = Some u'
    ∧ email u' = email u ∧ password_hash u' = password_hash u
    ∧ created_at u' = created_at u
    ∧ subscription_status u' = subscription_status u
    ∧ stripe_customer_id u' = stripe_customer_id u
    ∧ subscription_id u' = subscription_id u
    ∧ upgraded_at u' = upgraded_at u ∧ last_payment u' = last_payment u.
Proof.
  intros Hu. destruct (onRequest_effect rt req w) as [-> | (e & new & He & -> & Hch)].
  { exists u. by rewrite Hu. }
  destruct (decide (e = k)) as [->|Hne].
  - rewrite Hu in Hch. exists new. rewrite lookup_insert_eq.
    split; [done|]. by apply (api_change_existing rt k).
  - exists u. by rewrite lookup_insert_ne.
Qed.

Lemma api_request_preserves_account_witness :
  let w := Sample.store (Sample.account "active" 7) in
  let req := {| Api.method := "POST";
                Api.json := Some (search_body "a@x.com" Sample.cancer) |} in
  ∃ u', USERS_KV (Api.onRequest Sample.rt req w).2 !! "a@x.com" = Some u'
    ∧ email u' = "a@x.com" ∧ password_hash u' = "sha256:pw"
    ∧ created_at u' = Sample.date 2023 11 1
    ∧ subscription_status u' = "active"
    ∧ stripe_customer_id u' = None
    ∧ subscription_id u' = None
    ∧ upgraded_at u' = None ∧ last_payment u' = None.
Proof.
  cbv zeta.
  apply (api_request_preserves_account Sample.rt
           {| Api.method := "POST";
              Api.json := Some (search_body "a@x.com" Sample.cancer) |}
           (Sample.store (Sample.account "active" 7)) "a@x.com"
           (Sample.account "active" 7)).
  reflexivity.
Defined.

(** X3.  Across a request to [/api/search] the counter of an existing
    account stays, or goes up by exactly one from a value below the limit
    of its tier, or is reset to 0 together with the reset date, which
    becomes the date of the platform; the reset date changes in no other
    way. *)
Theorem api_request_counter_step rt (req : Api.request) (w : world)
    (k : string) (u u' : user) :
  USERS_KV w !! k = Some u →
  USERS_KV (Api.onRequest rt req w).2 !! k = Some u' →
  (monthly_searches u' = monthly_searches u ∧ last_reset u' = last_reset u)
  ∨ (monthly_searches u' = monthly_searches u + 1
     ∧ monthly_searches u < Api.maxSearches u ∧ last_reset u' = last_reset u)
  ∨ (monthly_searches u' = 0 ∧ last_reset u' = Some (now rt)).
Proof.
  intros Hu Hu'.
  destruct (onRequest_effect rt req w) as [Heq | (e & new & He & Heq & Hch)];
    rewrite Heq in Hu'.
  { left. rewrite Hu in Hu'. by injection Hu' as <-. }
  destruct (decide (e = k)) as [->|Hne].
  - rewrite lookup_insert_eq in Hu'. injection Hu' as <-. rewrite Hu in Hch.
    destruct Hch as [[-> Hlt] | ->]; simpl; auto.
  - rewrite lookup_insert_ne, Hu in Hu' by done. injection Hu' as <-. auto.
Qed.

Lemma api_request_counter_step_witness :
  let w := Sample.store (Sample.account "free" 2) in
  let req := {| Api.method := "POST";
                Api.json := Some (search_body "a@x.com" Sample.cancer) |} in
  let u := Sample.account "free" 2 in
  let u' := Sample.account "free" 3 in
  (monthly_searches u' = monthly_searches u ∧ last_reset u' = last_reset u)
  ∨ (monthly_searches u' = monthly_searches u + 1
     ∧ monthly_searches u < Api.maxSearches u ∧ last_reset u' = last_reset u)
  ∨ (monthly_searches u' = 0 ∧ last_reset u' = Some (now Sample.rt)).
Proof.
  cbv zeta.
  apply (api_request_counter_step Sample.rt
           {| Api.method := "POST";
              Api.json := Some (search_body "a@x.com" Sample.cancer) |}
           (Sample.store (Sample.account "free" 2)) "a@x.com");
    reflexivity.
Defined.

(** X4.  If every stored counter lies between 0 and the limit of its tier
    (5, or 15 for the status "active"), the same holds after any request to
    [/api/search]: the gate never lets a counter pass its limit. *)
Theorem api_request_keeps_within_limits rt (req : Api.request) (w : world) :
  within_limits (USERS_KV w) → within_limits (USERS_KV (Api.onRequest rt req w).2).
Proof.
  intros Hinv k u' Hu'.
  destruct (onRequest_effect rt req w) as [Heq | (e & new & He & Heq & Hch)];
    rewrite Heq in Hu'; [by apply (Hinv k)|].
  destruct (decide (e = k)) as [->|Hne]; [|rewrite lookup_insert_ne in Hu' by done;
                                           by apply (Hinv k)].
  rewrite lookup_insert_eq in Hu'. injection Hu' as <-.
  destruct (USERS_KV w !! k) as [u|] eqn:Hu; simpl in Hch.
  - specialize (Hinv k u Hu).
    destruct Hch as [[-> Hlt] | ->].
    + rewrite (maxSearches_same_status u) by done. simpl. lia.
    + rewrite (maxSearches_same_status u) by done. simpl.
      destruct (maxSearches_values u); lia.
  - destruct Hch as (p & _ & ->). by vm_compute.
Qed.

Lemma api_request_keeps_within_limits_witness :
  within_limits
    (USERS_KV (Api.onRequest Sample.rt
                 {| Api.method := "POST";
                    Api.json := Some (search_body "a@x.com" Sample.cancer) |}
                 (Sample.store (Sample.account "free" 4))).2).
Proof.
  apply (api_request_keeps_within_limits Sample.rt).
  apply sample_within_limits. by vm_compute.
Defined.

(** X5.  If every record is stored under the address it carries, the same
    holds after any request to [/api/search]: registration writes the new
    record under its own address, and no handler changes an address. *)
Theorem api_request_keeps_keyed_by_email rt (req : Api.request) (w : world) :
  keyed_by_email (USERS_KV w) → keyed_by_email (USERS_KV (Api.onRequest rt req w).2).
Proof.
  intros Hinv k u' Hu'.
  destruct (onRequest_effect rt req w) as [Heq | (e & new & He & Heq & Hch)];
    rewrite Heq in Hu'; [by apply Hinv|].
  destruct (decide (e = k)) as [->|Hne]; [|rewrite lookup_insert_ne in Hu' by done;
                                           by apply Hinv].
  rewrite lookup_insert_eq in Hu'. injection Hu' as <-.
  destruct (USERS_KV w !! k) as [u|] eqn:Hu; simpl in Hch.
  - destruct (api_change_existing rt k u new Hch) as [-> _]. by apply Hinv.
  - by destruct Hch as (p & _ & ->).
Qed.

Lemma api_request_keeps_keyed_by_email_witness :
  keyed_by_email
    (USERS_KV (Api.onRequest Sample.rt
                 {| Api.method := "POST";
                    Api.json := Some {| Body.action := Some "register";
                                        Body.email := Some "new@y.org";
                                        Body.password := Some "secret";
                                        Body.criteria := None;
                                        Body.sort_field := None;
                                        Body.sort_order := None;
                                        Body.offset := None;
                                        Body.limit := None |} |}
                 (Sample.store (Sample.account "free" 4))).2).
Proof.
  apply (api_request_keeps_keyed_by_email Sample.rt).
  by apply sample_keyed_by_email.
Defined.

(** ** Registration and login *)

Lemma new_month_same (d : Date) : Api.new_month d d = false.
Proof. unfold Api.new_month. by rewrite !Z.eqb_refl. Qed.

Lemma verifyPassword_own rt (p : string) :
  Api.verifyPassword rt p (Api.hashPassword rt p) = true.
Proof. unfold Api.verifyPassword. apply String.eqb_refl. Qed.



(** X7.  A request that lacks a required field is answered 400 before the
    store is looked at: registration and login without a non-empty address
    and password, search without a non-empty address and criteria.  The
    world, trace included, is as before. *)
Theorem required_fields_missing rt (email password : option string)
    (criteria : option jsobj) (w : world) :
  (nonempty email = None ∨ nonempty password = None →
     Api.handleRegister rt email password w
     = (Api.error_response 400 "Email and password required", w)
     ∧ Api.handleLogin rt email password w
       = (Api.error_response 400 "Email and password required", w))
  ∧ (nonempty email = None ∨ criteria = None →
     Api.handleSearch rt email criteria w
     = (Api.error_response 400 "Email and search criteria required", w)).
Proof.
  unfold Api.handleRegister, Api.handleLogin, Api.handleSearch.
  split; intros [H | H]; rewrite H; try done;
    by destruct (nonempty email).
Qed.

Lemma required_fields_missing_witness :
  Api.handleRegister Sample.rt (Some "a@x.com") (Some "")
    (Sample.store (Sample.account "free" 2))
  = (Api.error_response 400 "Email and password required",
     Sample.store (Sample.account "free" 2))
  ∧ Api.handleSearch Sample.rt (Some "") (Some Sample.cancer)
      (Sample.store (Sample.account "free" 2))
    = (Api.error_response 400 "Email and search criteria required",
       Sample.store (Sample.account "free" 2)).
Proof.
  destruct (required_fields_missing Sample.rt (Some "a@x.com") (Some "") None
              (Sample.store (Sample.account "free" 2))) as [Hcred _].
  destruct (required_fields_missing Sample.rt (Some "") None (Some Sample.cancer)
              (Sample.store (Sample.account "free" 2))) as [_ Hsearch].
  split; [apply Hcred; by right | apply Hsearch; by left].
Defined.

(** X8.  A login for an address without an account and a login with a
    wrong password for an existing account get the very same response, 401
    "Invalid credentials": the answer does not tell which of the two
    failed. *)
Theorem login_failures_indistinguishable rt (e p : string) (u : user)
    (unknown known : world) :
  e ≠ "" → p ≠ "" →
  USERS_KV unknown !! e = None →
  USERS_KV known !! e = Some u → Api.hashPassword rt p ≠ password_hash u →
  (Api.handleLogin rt (Some e) (Some p) unknown).1
  = (Api.handleLogin rt (Some e) (Some p) known).1
  ∧ (Api.handleLogin rt (Some e) (Some p) unknown).1
    = Api.error_response 401 "Invalid credentials"
  ∧ USERS_KV (Api.handleLogin rt (Some e) (Some p) unknown).2 = USERS_KV unknown.
Proof.
  intros He Hp Hnone Hsome Hbad. unfold Api.handleLogin.
  rewrite !nonempty_Some by done. run. rewrite Hnone, Hsome. simpl.
  assert (Api.verifyPassword rt p (password_hash u) = false) as ->.
  { unfold Api.verifyPassword. by apply String.eqb_neq. }
  done.
Qed.

Lemma login_failures_indistinguishable_witness :
  (Api.handleLogin Sample.rt (Some "a@x.com") (Some "guess")
     {| USERS_KV := ∅; trace := [] |}).1
  = (Api.handleLogin Sample.rt (Some "a@x.com") (Some "guess")
       (Sample.store (Sample.account "free" 2))).1.
Proof.
  apply (login_failures_indistinguishable Sample.rt "a@x.com" "guess"
           (Sample.account "free" 2) {| USERS_KV := ∅; trace := [] |}
           (Sample.store (Sample.account "free" 2)));
    [done | done | reflexivity | reflexivity | done].
Defined.

(** X9.  A login with the right password rolls the month over exactly when
    the month or the year of the platform's date differs from that of the
    last reset (or of the creation, when the record has no reset date): it
    then stores the record with counter 0 and the reset date of today and
    reports that record; otherwise it writes nothing and reports the stored
    record. *)
Theorem login_rolls_month_over rt (e p : string) (u : user) (w : world) :
  e ≠ "" → p ≠ "" → USERS_KV w !! e = Some u →
  Api.hashPassword rt p = password_hash u →
  let lastReset := default (created_at u) (last_reset u) in
  let out := Api.handleLogin rt (Some e) (Some p) w in
  status out.1 = 200
  ∧ ((getMonth (now rt) ≠ getMonth lastReset ∨ getFullYear (now rt) ≠ getFullYear lastReset) →
       USERS_KV out.2 = <[e := Api.reset_counter (now rt) u]> (USERS_KV w)
       ∧ kv_writes (trace out.2)
         = (kv_writes (trace w) ++ [(e, Api.reset_counter (now rt) u)])%list
       ∧ account_of out.1 = Some (JObj (safeUserData (Api.reset_counter (now rt) u))))
  ∧ ((getMonth (now rt) = getMonth lastReset ∧ getFullYear (now rt) = getFullYear lastReset) →
       USERS_KV out.2 = USERS_KV w
       ∧ kv_writes (trace out.2) = kv_writes (trace w)
       ∧ account_of out.1 = Some (JObj (safeUserData u))).
Proof.
  intros He Hp Hu Hhash. cbv zeta. unfold Api.handleLogin.
  rewrite !nonempty_Some by done. run. rewrite Hu. simpl.
  rewrite <- Hhash, verifyPassword_own. simpl.
  destruct (Api.new_month (now rt) (default (created_at u) (last_reset u))) eqn:Hnew;
    unfold Api.new_month in Hnew; simpl; rewrite !kv_writes_app; simpl;
    rewrite ?app_nil_r.
  - split; [done|]. split; [done|]. intros [Hm Hy].
    rewrite Hm, Hy, !Z.eqb_refl in Hnew. done.
  - split; [done|]. split; [|done]. intros Hdiff.
    apply orb_false_elim in Hnew as [Hm Hy].
    apply negb_false_iff, Z.eqb_eq in Hm, Hy. destruct Hdiff; done.
Qed.

Lemma login_rolls_month_over_witness :
  let u := Sample.account "free" 5 in
  let out := Api.handleLogin Sample.rt (Some "a@x.com") (Some "pw") (Sample.store u) in
  USERS_KV out.2
  = <["a@x.com" := Api.reset_counter (now Sample.rt) u]> (USERS_KV (Sample.store u))
  ∧ kv_writes (trace out.2)
    = (kv_writes (trace (Sample.store u))
       ++ [("a@x.com", Api.reset_counter (now Sample.rt) u)])%list
  ∧ account_of out.1 = Some (JObj (safeUserData (Api.reset_counter (now Sample.rt) u))).
Proof.
  cbv zeta.
  destruct (login_rolls_month_over Sample.rt "a@x.com" "pw" (Sample.account "free" 5)
              (Sample.store (Sample.account "free" 5))
              ltac:(done) ltac:(done) eq_refl eq_refl) as (_ & Hroll & _).
  apply Hroll. left. by vm_compute.
Defined.

(** X10.  Login is idempotent on one platform date: whatever the request
    and the store, a second identical login gets the same response as the
    first and leaves the store as the first left it. *)
Theorem login_twice rt (email password : option string) (w : world) :
  let first := Api.handleLogin rt email password w in
  let second := Api.handleLogin rt email password first.2 in
  second.1 = first.1 ∧ USERS_KV second.2 = USERS_KV first.2.
Proof.
  cbv zeta. unfold Api.handleLogin.
  destruct (nonempty email) as [e|]; [|done].
  destruct (nonempty password) as [p|]; [|done]. run.
  destruct (USERS_KV w !! e) as [u|] eqn:Hu; simpl; rewrite ?Hu; simpl; [|done].
  destruct (Api.verifyPassword rt p (password_hash u)) eqn:Hv; simpl;
    rewrite ?Hu; simpl; rewrite ?Hv; simpl; [|done].
  destruct (Api.new_month _ _) eqn:Hnew; simpl.
  - rewrite lookup_insert_eq. simpl. rewrite Hv, new_month_same. done.
  - rewrite Hu. simpl. rewrite Hv, Hnew. done.
Qed.

(** ** Reset, search and the notifier *)

Lemma maxSearches_positive (u : user) : 0 < Api.maxSearches u.
Proof. destruct (maxSearches_values u); lia. Qed.

(** X11.  [reset] asks for no password.  For an existing account it stores
    counter 0 with the reset date of today, keeps every other field, and
    the next search of that account is not refused for quota, whatever the
    counter was. *)
Theorem reset_reopens_quota rt (e : string) (u : user) (w : world) :
  e ≠ "" → USERS_KV w !! e = Some u →
  let out := Api.handleReset rt (Some e) w in
  status out.1 = 200
  ∧ USERS_KV out.2 = <[e := Api.reset_counter (now rt) u]> (USERS_KV w)
  ∧ account_of out.1 = Some (JObj (safeUserData (Api.reset_counter (now rt) u)))
  ∧ ∀ criteria, status (Api.handleSearch rt (Some e) (Some criteria) out.2).1 ≠ 429.
Proof.
  intros He Hu. cbv zeta.
  assert (Api.handleReset rt (Some e) w
          = (Api.json_response 200
               [ ("success", JBool true);
                 ("message", JStr "Search counter reset successfully");
                 ("user", JObj (safeUserData (Api.reset_counter (now rt) u))) ],
             {| USERS_KV := <[e := Api.reset_counter (now rt) u]> (USERS_KV w);
                trace := trace w ++ [KvGet e; KvPut e (Api.reset_counter (now rt) u)] |}))
    as ->.
  { unfold Api.handleReset. rewrite nonempty_Some by done. run. rewrite Hu. simpl.
    by rewrite <- app_assoc. }
  simpl. do 3 (split; [done|]). intros criteria.
  match goal with
  | |- status (Api.handleSearch rt _ _ ?w1).1 ≠ _ =>
      destruct (handleSearch_within_quota_status rt e criteria
                  (Api.reset_counter (now rt) u) w1) as [-> | ->]; try done
  end.
  - simpl. apply lookup_insert_eq.
  - simpl. rewrite (maxSearches_same_status u) by done. apply maxSearches_positive.
Qed.

Lemma reset_reopens_quota_witness :
  let out := Api.handleReset Sample.rt (Some "a@x.com")
               (Sample.store (Sample.account "free" 5)) in
  status out.1 = 200
  ∧ status (Api.handleSearch Sample.rt (Some "a@x.com") (Some Sample.cancer) out.2).1 ≠ 429.
Proof.
  cbv zeta.
  destruct (reset_reopens_quota Sample.rt "a@x.com" (Sample.account "free" 5)
              (Sample.store (Sample.account "free" 5)) ltac:(done) eq_refl)
    as (Hst & _ & _ & Hsearch).
  split; [exact Hst | exact (Hsearch Sample.cancer)].
Defined.



(** One search while the NIH API is available: the record afterwards. *)
Lemma search_once_available rt (e : string) (criteria : jsobj) (u : user) (w : world) :
  nih_available rt → e ≠ "" → USERS_KV w !! e = Some u →
  USERS_KV (Api.handleSearch rt (Some e) (Some criteria) w).2 !! e
  = Some (if monthly_searches u <? Api.maxSearches u then Api.count_search u else u).
Proof.
  intros Hnih He Hu.
  destruct (Z.ltb_spec (monthly_searches u) (Api.maxSearches u)) as [Hlt|Hge].
  - rewrite (handleSearch_within_quota _ _ _ u) by done. cbv zeta.
    destruct (Hnih (Api.nihPayload u criteria)) as (st & results & -> & ->). simpl.
    match goal with
    | |- context [Api.sendSearchResultsEmail rt e ?p ?c ?w1] =>
        destruct (sendSearchResultsEmail_frame rt e p c w1) as [-> _]
    end.
    simpl. apply lookup_insert_eq.
  - by rewrite (handleSearch_over_quota _ _ _ u).
Qed.

(** X13.  While the NIH API is available, [n] searches in a row take an
    account whose counter [c] is within the limit [L] of its tier to the
    counter [min (c + n) L]: each search counts once until the limit is
    reached, and then none does.  The next search is refused with 429
    exactly when [c + n] has reached [L]. *)
Theorem searches_exhaust_quota rt (e : string) (criteria : jsobj) (n : nat)
    (u : user) (w : world) :
  nih_available rt → e ≠ "" → USERS_KV w !! e = Some u →
  monthly_searches u ≤ Api.maxSearches u →
  let after := search_times rt e criteria n w in
  (monthly_searches <$> USERS_KV after !! e)
  = Some (Z.min (monthly_searches u + Z.of_nat n) (Api.maxSearches u))
  ∧ (subscription_status <$> USERS_KV after !! e) = Some (subscription_status u)
  ∧ (status (Api.handleSearch rt (Some e) (Some criteria) after).1 = 429
     ↔ Api.maxSearches u ≤ monthly_searches u + Z.of_nat n).
Proof.
  intros Hnih He. cbv zeta. revert u w.
  induction n as [|n IH]; intros u w Hu Hle.
  - simpl. rewrite Hu. simpl. split; [f_equal; lia|]. split; [done|].
    destruct (Z_lt_le_dec (monthly_searches u) (Api.maxSearches u)) as [Hlt|Hge].
    + destruct (handleSearch_within_quota_status rt e criteria u w He Hu Hlt)
        as [-> | ->]; split; (done || lia).
    + rewrite (handleSearch_over_quota _ _ _ u) by done. simpl. split; [lia|done].
  - simpl.
    pose proof (search_once_available rt e criteria u w Hnih He Hu) as Hstep.
    destruct (Z.ltb_spec (monthly_searches u) (Api.maxSearches u)) as [Hlt|Hge].
    + destruct (IH (Api.count_search u) _ Hstep) as (Hc & Hs & Hq).
      { rewrite (maxSearches_same_status u) by done. simpl. lia. }
      rewrite (maxSearches_same_status u (Api.count_search u)) in Hc, Hq by done.
      simpl in Hc, Hs, Hq. rewrite Hc, Hs, Hq.
      split; [f_equal; lia|]. split; [done|]. split; lia.
    + destruct (IH u _ Hstep Hle) as (Hc & Hs & Hq).
      rewrite Hc, Hs, Hq. split; [f_equal; lia|]. split; [done|]. split; lia.
Qed.

Lemma searches_exhaust_quota_witness :
  let after := search_times Sample.rt "a@x.com" Sample.cancer 7
                 (Sample.store (Sample.account "free" 2)) in
  (monthly_searches <$> USERS_KV after !! "a@x.com") = Some 5
  ∧ (subscription_status <$> USERS_KV after !! "a@x.com") = Some "free"
  ∧ (status (Api.handleSearch Sample.rt (Some "a@x.com") (Some Sample.cancer) after).1 = 429
     ↔ 5 ≤ 2 + 7).
Proof.
  apply (searches_exhaust_quota Sample.rt "a@x.com" Sample.cancer 7
           (Sample.account "free" 2) (Sample.store (Sample.account "free" 2)));
    [ intros p; by exists 200, (Some [JObj [("fy", JNum 2023)]; JObj [("fy", JNum 2024)]])
    | done | reflexivity | by vm_compute ].
Defined.





(** X16.  The criteria that the gate sends never carry a truthy
    [text_search], and normalising them again changes nothing. *)
Theorem searchCriteria_normal_form (criteria : jsobj) :
  truthy_opt (obj_get "text_search" (Api.searchCriteria criteria)) = false
  ∧ Api.searchCriteria (Api.searchCriteria criteria) = Api.searchCriteria criteria.
Proof.
  assert (truthy_opt (obj_get "text_search" (Api.searchCriteria criteria)) = false) as H.
  { unfold Api.searchCriteria.
    destruct (obj_get "text_search" criteria) as [text|] eqn:Hget; [|by rewrite Hget].
    destruct (truthy text) eqn:Ht; [by rewrite obj_get_delete_eq|].
    by rewrite Hget. }
  split; [done|]. by apply searchCriteria_falsy.
Qed.

(** X17.  [upgrade] never reads or writes the store.  Without both Stripe
    settings it answers 500 without calling Stripe; with them it makes one
    call, for a subscription at the configured price, that carries the
    caller's address both as [customer_email] and as
    [metadata[user_email]] -- the two places where the webhook looks for
    it. *)
Theorem upgrade_leaves_store rt (email : option string) (w : world) :
  let out := Api.handleUpgrade rt email w in
  USERS_KV out.2 = USERS_KV w
  ∧ match nonempty (STRIPE_SECRET_KEY rt), nonempty (STRIPE_PRICE_ID rt) with
    | Some key, Some price =>
        ∃ params, trace out.2 = (trace w ++ [StripeCheckoutSession key params])%list
          ∧ params !! 1%nat = Some ("mode", "subscription")
          ∧ params !! 2%nat = Some ("line_items[0][price]", price)
          ∧ params !! 4%nat = Some ("customer_email", default "undefined" email)
          ∧ params !! 7%nat = Some ("metadata[user_email]", default "undefined" email)
    | _, _ => out = (Api.error_response 500 "Payment configuration missing", w)
    end.
Proof.
  cbv zeta. unfold Api.handleUpgrade.
  destruct (nonempty (STRIPE_SECRET_KEY rt)) as [key|],
    (nonempty (STRIPE_PRICE_ID rt)) as [price|]; try done.
  run.
  destruct (stripe_checkout_sessions rt _) as [msg|st [msg|url]]; simpl;
    try destruct (ok st); simpl; (split; [done|]); by eexists.
Qed.

(** ** The webhook and the store *)

Lemma handleCheckoutCompleted_effect rt (session : Webhook.stripe_object) (w : world) :
  webhook_effect rt (USERS_KV w) (USERS_KV (Webhook.handleCheckoutCompleted rt session w).2).
Proof.
  unfold Webhook.handleCheckoutCompleted.
  destruct (nonempty (Webhook.customerEmail session)) as [e|]; [|by left]. run.
  destruct (USERS_KV w !! e) as [u|] eqn:Hu; simpl; [|by left].
  right. exists e, u, (Webhook.activate (now rt) session u).
  split; [done|]. split; [done|]. left. by exists session.
Qed.

Lemma handlePaymentSucceeded_effect rt (invoice : Webhook.stripe_object) (w : world) :
  webhook_effect rt (USERS_KV w) (USERS_KV (Webhook.handlePaymentSucceeded rt invoice w).2).
Proof.
  unfold Webhook.handlePaymentSucceeded.
  destruct (nonempty (Webhook.customer_email invoice)) as [e|]; [|by left]. run.
  destruct (USERS_KV w !! e) as [u|] eqn:Hu; simpl; [|by left].
  right. exists e, u, (Webhook.paid (now rt) u). split; [done|]. split; [done|]. by right.
Qed.

Lemma webhook_onRequest_effect rt (req : Webhook.request) (w : world) :
  webhook_effect rt (USERS_KV w) (USERS_KV (Webhook.onRequest rt req w).2).
Proof.
  unfold Webhook.onRequest.
  destruct (String.eqb (Webhook.method req) "OPTIONS"); [by left|].
  destruct (negb (String.eqb (Webhook.method req) "POST")); [by left|].
  destruct (Webhook.text req) as [payload|]; [|by left]. cbv zeta.
  unfold Webhook.on_object.
  destruct (String.eqb _ "checkout.session.completed").
  { destruct (Webhook.data payload) as [| |o]; try by left. run.
    pose proof (handleCheckoutCompleted_effect rt o w) as H.
    by destruct (Webhook.handleCheckoutCompleted rt o w). }
  destruct (String.eqb _ "invoice.payment_succeeded").
  { destruct (Webhook.data payload) as [| |o]; try by left. run.
    pose proof (handlePaymentSucceeded_effect rt o w) as H.
    by destruct (Webhook.handlePaymentSucceeded rt o w). }
  destruct (String.eqb _ "customer.subscription.deleted"); [|by left].
  destruct (Webhook.data payload); by left.
Qed.

Lemma webhook_change_fields rt (u new : user) :
  webhook_change rt u new →
  email new = email u ∧ password_hash new = password_hash u
  ∧ created_at new = created_at u
  ∧ monthly_searches new = monthly_searches u ∧ last_reset new = last_reset u
  ∧ subscription_status new = "active".
Proof. intros [[session ->] | ->]; done. Qed.

(** X18.  A webhook request creates no account and deletes none.  Of an
    existing record it never changes the address, the password hash, the
    creation date, the counter or the reset date, and it leaves the
    subscription status as it was or sets it to "active": no event, the
    cancellation of a subscription included, takes an account out of
    "active". *)
Theorem webhook_request_preserves_account rt (req : Webhook.request) (w : world)
    (k : string) :
  let kv' := USERS_KV (Webhook.onRequest rt req w).2 in
  (USERS_KV w !! k = None → kv' !! k = None)
  ∧ ∀ u, USERS_KV w !! k = Some u →
      ∃ u', kv' !! k = Some u'
        ∧ email u' = email u ∧ password_hash u' = password_hash u
        ∧ created_at u' = created_at u
        ∧ monthly_searches u' = monthly_searches u ∧ last_reset u' = last_reset u
        ∧ (subscription_status u' = subscription_status u
           ∨ subscription_status u' = "active").
Proof.
  cbv zeta.
  destruct (webhook_onRequest_effect rt req w) as [-> | (e & u0 & new & He & -> & Hch)].
  { split; [done|]. intros u Hu. exists u. auto 10. }
  destruct (decide (e = k)) as [->|Hne].
  - split; [by rewrite He|]. intros u Hu. rewrite He in Hu. injection Hu as ->.
    exists new. rewrite lookup_insert_eq.
    destruct (webhook_change_fields rt u new Hch) as (? & ? & ? & ? & ? & ?). auto 10.
  - rewrite lookup_insert_ne by done. split; [done|]. intros u Hu. exists u. auto 10.
Qed.

Lemma webhook_request_preserves_account_witness :
  let req := {| Webhook.method := "POST"; Webhook.stripe_signature := None;
                Webhook.text := Some {| Webhook.type := Some "customer.subscription.deleted";
                                        Webhook.data := Webhook.Object (session_of "a@x.com") |} |} in
  ∃ u', USERS_KV (Webhook.onRequest Sample.rt req (Sample.store (Sample.account "active" 7))).2
          !! "a@x.com" = Some u'
    ∧ monthly_searches u' = 7
    ∧ (subscription_status u' = "active" ∨ subscription_status u' = "active").
Proof.
  cbv zeta.
  destruct (webhook_request_preserves_account Sample.rt
              {| Webhook.method := "POST"; Webhook.stripe_signature := None;
                 Webhook.text := Some {| Webhook.type := Some "customer.subscription.deleted";
                                         Webhook.data := Webhook.Object (session_of "a@x.com") |} |}
              (Sample.store (Sample.account "active" 7)) "a@x.com") as [_ Hkeep].
  destruct (Hkeep (Sample.account "active" 7) eq_refl)
    as (u' & Hu' & _ & _ & _ & Hcount & _ & Hstatus).
  exists u'. split; [exact Hu'|]. split; [exact Hcount | exact Hstatus].
Defined.

(** X19.  The two invariants of the store survive every webhook request:
    records stay under their own address, and counters stay within the
    limit of their tier (an upgrade only raises the limit, from 5 to 15). *)
Theorem webhook_request_keeps_invariants rt (req : Webhook.request) (w : world) :
  (keyed_by_email (USERS_KV w) →
   keyed_by_email (USERS_KV (Webhook.onRequest rt req w).2))
  ∧ (within_limits (USERS_KV w) →
     within_limits (USERS_KV (Webhook.onRequest rt req w).2)).
Proof.
  split; intros Hinv k u' Hu';
    (destruct (webhook_onRequest_effect rt req w)
       as [Heq | (e & u & new & He & Heq & Hch)];
     rewrite Heq in Hu'; [by apply (Hinv k)|]);
    (destruct (decide (e = k)) as [->|Hne];
       [rewrite lookup_insert_eq in Hu'; injection Hu' as <-
       |rewrite lookup_insert_ne in Hu' by done; by apply (Hinv k)]);
    destruct (webhook_change_fields rt u new Hch) as (Hemail & _ & _ & Hcount & _ & Hactive).
  - rewrite Hemail. by apply Hinv.
  - specialize (Hinv k u He). rewrite Hcount.
    assert (Api.maxSearches new = 15) as ->.
    { unfold Api.maxSearches, Api.isFreeTier. by rewrite Hactive. }
    destruct (maxSearches_values u); lia.
Qed.

Lemma webhook_request_keeps_invariants_witness :
  let req := {| Webhook.method := "POST"; Webhook.stripe_signature := None;
                Webhook.text := Some {| Webhook.type := Some "checkout.session.completed";
                                        Webhook.data := Webhook.Object (session_of "a@x.com") |} |} in
  let w := Sample.store (Sample.account "free" 5) in
  keyed_by_email (USERS_KV (Webhook.onRequest Sample.rt req w).2)
  ∧ within_limits (USERS_KV (Webhook.onRequest Sample.rt req w).2).
Proof.
  cbv zeta.
  destruct (webhook_request_keeps_invariants Sample.rt
              {| Webhook.method := "POST"; Webhook.stripe_signature := None;
                 Webhook.text := Some {| Webhook.type := Some "checkout.session.completed";
                                         Webhook.data := Webhook.Object (session_of "a@x.com") |} |}
              (Sample.store (Sample.account "free" 5))) as [Hkeyed Hlimits].
  split.
  - apply Hkeyed. by apply sample_keyed_by_email.
  - apply Hlimits. apply sample_within_limits. by vm_compute.
Defined.

(** X20.  A POST whose event is neither a completed checkout nor a
    succeeded payment has no effect at all: the world is as before.  It is
    acknowledged with 200, except for a subscription cancellation whose
    body has no [data], which is answered 400. *)
Theorem webhook_other_events_no_effect rt (sig : option string)
    (payload : Webhook.payload) (w : world) :
  Webhook.type payload ≠ Some "checkout.session.completed" →
  Webhook.type payload ≠ Some "invoice.payment_succeeded" →
  let out := Webhook.onRequest rt
               {| Webhook.method := "POST"; Webhook.stripe_signature := sig;
                  Webhook.text := Some payload |} w in
  out.2 = w
  ∧ (out.1 = Webhook.received
     ∨ (Webhook.type payload = Some "customer.subscription.deleted"
        ∧ Webhook.data payload = Webhook.DataMissing
        ∧ out.1 = Webhook.webhook_failed)).
Proof.
  intros H1 H2. cbv zeta. unfold Webhook.onRequest. simpl.
  destruct (Webhook.type payload) as [t|] eqn:Ht; simpl; [|auto].
  destruct (String.eqb t "checkout.session.completed") eqn:E1.
  { apply String.eqb_eq in E1 as ->. done. }
  destruct (String.eqb t "invoice.payment_succeeded") eqn:E2.
  { apply String.eqb_eq in E2 as ->. done. }
  destruct (String.eqb t "customer.subscription.deleted") eqn:E3; [|auto].
  apply String.eqb_eq in E3 as ->.
  destruct (Webhook.data payload); simpl; auto.
Qed.

Lemma webhook_other_events_no_effect_witness :
  let out := Webhook.onRequest Sample.rt
               {| Webhook.method := "POST"; Webhook.stripe_signature := None;
                  Webhook.text := Some {| Webhook.type := Some "customer.subscription.deleted";
                                          Webhook.data := Webhook.Object (session_of "a@x.com") |} |}
               (Sample.store (Sample.account "active" 7)) in
  out.2 = Sample.store (Sample.account "active" 7)
  ∧ (out.1 = Webhook.received
     ∨ (Some "customer.subscription.deleted" = Some "customer.subscription.deleted"
        ∧ Webhook.Object (session_of "a@x.com") = Webhook.DataMissing
        ∧ out.1 = Webhook.webhook_failed)).
Proof.
  apply (webhook_other_events_no_effect Sample.rt None
           {| Webhook.type := Some "customer.subscription.deleted";
              Webhook.data := Webhook.Object (session_of "a@x.com") |}
           (Sample.store (Sample.account "active" 7))); done.
Defined.

(** X21.  A confirmation that names no address, or an address without an
    account, is dropped: the request is acknowledged with 200 and the store
    is unchanged, with no write.  This holds for a completed checkout and
    for a succeeded payment alike. *)
Theorem webhook_unknown_customer_dropped rt (sig : option string) (type : string)
    (o : Webhook.stripe_object) (w : world) :
  type = "checkout.session.completed" ∨ type = "invoice.payment_succeeded" →
  (∀ e, nonempty (Webhook.customerEmail o) = Some e → USERS_KV w !! e = None) →
  (∀ e, nonempty (Webhook.customer_email o) = Some e → USERS_KV w !! e = None) →
  let out := Webhook.onRequest rt
               {| Webhook.method := "POST"; Webhook.stripe_signature := sig;
                  Webhook.text := Some {| Webhook.type := Some type;
                                          Webhook.data := Webhook.Object o |} |} w in
  out.1 = Webhook.received
  ∧ USERS_KV out.2 = USERS_KV w
  ∧ kv_writes (trace out.2) = kv_writes (trace w).
Proof.
  intros Htype Hcheckout Hinvoice. cbv zeta. unfold Webhook.onRequest, Webhook.on_object.
  destruct Htype as [-> | ->]; simpl.
  - unfold Webhook.handleCheckoutCompleted.
    destruct (nonempty (Webhook.customerEmail o)) as [e|] eqn:He; [|done].
    run. rewrite (Hcheckout e) by done. simpl.
    rewrite kv_writes_app. simpl. by rewrite app_nil_r.
  - unfold Webhook.handlePaymentSucceeded.
    destruct (nonempty (Webhook.customer_email o)) as [e|] eqn:He; [|done].
    run. rewrite (Hinvoice e) by done. simpl.
    rewrite kv_writes_app. simpl. by rewrite app_nil_r.
Qed.

Lemma webhook_unknown_customer_dropped_witness :
  let out := Webhook.onRequest Sample.rt
               {| Webhook.method := "POST"; Webhook.stripe_signature := None;
                  Webhook.text := Some {| Webhook.type := Some "checkout.session.completed";
                                          Webhook.data := Webhook.Object (session_of "nobody@y.org") |} |}
               (Sample.store (Sample.account "free" 2)) in
  out.1 = Webhook.received
  ∧ USERS_KV out.2 = USERS_KV (Sample.store (Sample.account "free" 2))
  ∧ kv_writes (trace out.2) = kv_writes (trace (Sample.store (Sample.account "free" 2))).
Proof.
  apply (webhook_unknown_customer_dropped Sample.rt None "checkout.session.completed"
           (session_of "nobody@y.org") (Sample.store (Sample.account "free" 2)));
    [by left | by intros e [= <-] | by intros e [= <-]].
Defined.

(** X22.  A succeeded payment for an existing account sets the status
    "active" and [last_payment] to the date of the platform and keeps every
    other field, the Stripe ids and the counter among them.  The account is
    found by the invoice's [customer_email] alone: the address in the
    metadata, which a completed checkout falls back to, is not used. *)
Theorem payment_succeeded_activates rt (sig : option string)
    (invoice : Webhook.stripe_object) (w : world) :
  let out := Webhook.onRequest rt
               {| Webhook.method := "POST"; Webhook.stripe_signature := sig;
                  Webhook.text := Some {| Webhook.type := Some "invoice.payment_succeeded";
                                          Webhook.data := Webhook.Object invoice |} |} w in
  out.1 = Webhook.received
  ∧ (∀ e u, nonempty (Webhook.customer_email invoice) = Some e → USERS_KV w !! e = Some u →
       USERS_KV out.2 = <[e := Webhook.paid (now rt) u]> (USERS_KV w)
       ∧ subscription_status (Webhook.paid (now rt) u) = "active"
       ∧ last_payment (Webhook.paid (now rt) u) = Some (now rt)
       ∧ stripe_customer_id (Webhook.paid (now rt) u) = stripe_customer_id u
       ∧ subscription_id (Webhook.paid (now rt) u) = subscription_id u
       ∧ upgraded_at (Webhook.paid (now rt) u) = upgraded_at u
       ∧ monthly_searches (Webhook.paid (now rt) u) = monthly_searches u)
  ∧ (nonempty (Webhook.customer_email invoice) = None → out.2 = w).
Proof.
  cbv zeta. unfold Webhook.onRequest, Webhook.on_object, Webhook.handlePaymentSucceeded.
  simpl. destruct (nonempty (Webhook.customer_email invoice)) as [e|]; simpl.
  - run. split; [by destruct (USERS_KV w !! e)|]. split; [|done].
    intros ? u [= <-] Hu. by rewrite Hu.
  - done.
Qed.

Lemma payment_succeeded_activates_witness :
  let invoice := {| Webhook.customer_email := None;
                    Webhook.metadata_user_email := Some "a@x.com";
                    Webhook.customer := Some (JStr "cus_1");
                    Webhook.subscription := Some (JStr "sub_1") |} in
  (Webhook.onRequest Sample.rt
     {| Webhook.method := "POST"; Webhook.stripe_signature := None;
        Webhook.text := Some {| Webhook.type := Some "invoice.payment_succeeded";
                                Webhook.data := Webhook.Object invoice |} |}
     (Sample.store (Sample.account "free" 2))).2
  = Sample.store (Sample.account "free" 2).
Proof.
  cbv zeta.
  apply (payment_succeeded_activates Sample.rt None
           {| Webhook.customer_email := None;
              Webhook.metadata_user_email := Some "a@x.com";
              Webhook.customer := Some (JStr "cus_1");
              Webhook.subscription := Some (JStr "sub_1") |}
           (Sample.store (Sample.account "free" 2))).
  reflexivity.
Defined.

(** X23.  The upgrade takes effect at once.  After a completed checkout for
    an existing account whose counter is below 15, the next search of that
    account is not refused for quota -- also when the account had used up
    the 5 searches of the free tier -- and asks the NIH API for 10
    results. *)
Theorem upgrade_lifts_quota rt (sig : option string) (session : Webhook.stripe_object)
    (e : string) (u : user) (criteria : jsobj) (w : world) :
  nonempty (Webhook.customerEmail session) = Some e → USERS_KV w !! e = Some u →
  monthly_searches u < 15 →
  let upgraded := (Webhook.onRequest rt
                     {| Webhook.method := "POST"; Webhook.stripe_signature := sig;
                        Webhook.text := Some {| Webhook.type := Some "checkout.session.completed";
                                                Webhook.data := Webhook.Object session |} |} w).2 in
  let out := Api.handleSearch rt (Some e) (Some criteria) upgraded in
  status out.1 ≠ 429
  ∧ ∃ p, nih_requests (trace out.2) = (nih_requests (trace w) ++ [p])%list
         ∧ Nih.limit p = 10.
Proof.
  intros He Hu Hlt. cbv zeta.
  assert ((Webhook.onRequest rt
             {| Webhook.method := "POST"; Webhook.stripe_signature := sig;
                Webhook.text := Some {| Webhook.type := Some "checkout.session.completed";
                                        Webhook.data := Webhook.Object session |} |} w).2
          = {| USERS_KV := <[e := Webhook.activate (now rt) session u]> (USERS_KV w);
               trace := trace w ++ [KvGet e; KvPut e (Webhook.activate (now rt) session u)] |})
    as ->.
  { unfold Webhook.onRequest, Webhook.on_object, Webhook.handleCheckoutCompleted. simpl.
    rewrite He. run. rewrite Hu. simpl. by rewrite <- app_assoc. }
  apply nonempty_inv in He as [_ He].
  set (u' := Webhook.activate (now rt) session u).
  set (w' := {| USERS_KV := <[e:=u']> (USERS_KV w); trace := trace w ++ [KvGet e; KvPut e u'] |}).
  assert (USERS_KV w' !! e = Some u') as Hu' by apply lookup_insert_eq.
  assert (monthly_searches u' < Api.maxSearches u') as Hlt' by done.
  split.
  - by destruct (handleSearch_within_quota_status rt e criteria u' w' He Hu' Hlt') as [-> | ->].
  - exists (Api.nihPayload u' criteria). split; [|done].
    rewrite (handleSearch_within_quota _ _ _ u') by done. cbv zeta.
    assert (nih_requests (trace w') = nih_requests (trace w)) as <-.
    { unfold w'. simpl. rewrite nih_requests_app. simpl. by rewrite app_nil_r. }
    destruct (nih_projects_search rt _) as [msg|st nihData]; simpl;
      [by rewrite nih_requests_app|].
    destruct (ok st); simpl; [|by rewrite nih_requests_app].
    destruct nihData as [msg|msg|results]; simpl; try by rewrite nih_requests_app.
    match goal with
    | |- context [Api.sendSearchResultsEmail rt e ?p ?c ?w1] =>
        destruct (sendSearchResultsEmail_frame rt e p c w1) as (_ & evs & -> & Hevs)
    end.
    simpl. rewrite !nih_requests_app, (nih_requests_notifier evs) by done.
    simpl. by rewrite app_nil_r.
Qed.

Lemma upgrade_lifts_quota_witness :
  let upgraded := (Webhook.onRequest Sample.rt
                     {| Webhook.method := "POST"; Webhook.stripe_signature := None;
                        Webhook.text := Some {| Webhook.type := Some "checkout.session.completed";
                                                Webhook.data := Webhook.Object (session_of "a@x.com") |} |}
                     (Sample.store (Sample.account "free" 5))).2 in
  let out := Api.handleSearch Sample.rt (Some "a@x.com") (Some Sample.cancer) upgraded in
  status out.1 ≠ 429
  ∧ ∃ p, nih_requests (trace out.2) = [p] ∧ Nih.limit p = 10.
Proof.
  apply (upgrade_lifts_quota Sample.rt None (session_of "a@x.com") "a@x.com"
           (Sample.account "free" 5) Sample.cancer (Sample.store (Sample.account "free" 5)));
    reflexivity.
Defined.

(** X24.  A POST whose body is not JSON, or whose checkout or payment
    event has no [data], is answered 400 "Webhook failed" and changes
    nothing; a body whose [data] has no [object] is acknowledged with 200
    and changes nothing either. *)
Theorem webhook_malformed_no_effect rt (sig : option string)
    (text : option Webhook.payload) (w : world) :
  (∀ payload, text = Some payload → ∀ o, Webhook.data payload ≠ Webhook.Object o) →
  let out := Webhook.onRequest rt
               {| Webhook.method := "POST"; Webhook.stripe_signature := sig;
                  Webhook.text := text |} w in
  out.2 = w
  ∧ (text = None → out.1 = Webhook.webhook_failed)
  ∧ (∀ payload, text = Some payload → Webhook.data payload = Webhook.ObjectMissing →
       out.1 = Webhook.received)
  ∧ (∀ payload, text = Some payload → Webhook.data payload = Webhook.DataMissing →
       Webhook.type payload = Some "checkout.session.completed"
       ∨ Webhook.type payload = Some "invoice.payment_succeeded" →
       out.1 = Webhook.webhook_failed).
Proof.
  intros Hno. cbv zeta. unfold Webhook.onRequest, Webhook.on_object. simpl.
  destruct text as [payload|]; [|done].
  specialize (Hno payload eq_refl).
  destruct (Webhook.data payload) as [| |o] eqn:Hd; [| |by destruct (Hno o)].
  - split; [by repeat case_match|]. split; [done|]. split.
    + intros ? [= <-] ?. congruence.
    + intros ? [= <-] _ [Ht | Ht]; by rewrite Ht.
  - split; [by repeat case_match|]. split; [done|]. split.
    + intros ? [= <-] _. by repeat case_match.
    + intros ? [= <-] ?. congruence.
Qed.

Lemma webhook_malformed_no_effect_witness :
  let out := Webhook.onRequest Sample.rt
               {| Webhook.method := "POST"; Webhook.stripe_signature := None;
                  Webhook.text := None |} (Sample.store (Sample.account "free" 2)) in
  out.2 = Sample.store (Sample.account "free" 2) ∧ out.1 = Webhook.webhook_failed.
Proof.
  cbv zeta.
  destruct (webhook_malformed_no_effect Sample.rt None None
              (Sample.store (Sample.account "free" 2)) ltac:(done)) as (Hw & Hfail & _).
  split; [exact Hw | exact (Hfail eq_refl)].
Defined.

(** ** Requests that do nothing, and the headers of every answer *)

(** X25.  A request to [/api/search] that is not a POST, or whose body is
    not JSON, or whose action is none of the five known ones, has no
    effect: the world is as before.  OPTIONS is answered 200, another
    method 405, a body that is not JSON 500, an unknown action 400. *)
Theorem api_unroutable_no_effect rt (req : Api.request) (w : world) :
  let out := Api.onRequest rt req w in
  (Api.method req = "OPTIONS" → out = ({| status := 200; headers := Api.cors; body := Text "" |}, w))
  ∧ (Api.method req ≠ "OPTIONS" → Api.method req ≠ "POST" →
     out = (Api.error_response 405 "Use POST method", w))
  ∧ (Api.method req = "POST" → Api.json req = None →
     out = (Api.error_response 500 "Internal server error", w))
  ∧ (∀ b, Api.method req = "POST" → Api.json req = Some b →
       default "" (Body.action b) ∉ ["register"; "login"; "search"; "upgrade"; "reset"] →
       out = (Api.error_response 400 "Invalid action", w)).
Proof.
  cbv zeta. unfold Api.onRequest. repeat split.
  - by intros ->.
  - intros H1 H2. apply String.eqb_neq in H1, H2. by rewrite H1, H2.
  - by intros -> ->.
  - intros b -> -> Hact. simpl.
    repeat match goal with
           | |- context [if String.eqb ?a ?s then _ else _] =>
               let E := fresh "E" in
               destruct (String.eqb a s) eqn:E;
                 [apply String.eqb_eq in E; exfalso; apply Hact; rewrite E; set_solver|]
           end.
    done.
Qed.

Lemma api_unroutable_no_effect_witness :
  Api.onRequest Sample.rt
    {| Api.method := "POST";
       Api.json := Some {| Body.action := Some "delete";
                           Body.email := Some "a@x.com";
                           Body.password := None;
                           Body.criteria := None;
                           Body.sort_field := None;
                           Body.sort_order := None;
                           Body.offset := None;
                           Body.limit := None |} |}
    (Sample.store (Sample.account "free" 2))
  = (Api.error_response 400 "Invalid action", Sample.store (Sample.account "free" 2)).
Proof.
  destruct (api_unroutable_no_effect Sample.rt
              {| Api.method := "POST";
                 Api.json := Some {| Body.action := Some "delete";
                                     Body.email := Some "a@x.com";
                                     Body.password := None;
                                     Body.criteria := None;
                                     Body.sort_field := None;
                                     Body.sort_order := None;
                                     Body.offset := None;
                                     Body.limit := None |} |}
              (Sample.store (Sample.account "free" 2))) as (_ & _ & _ & Hunknown).
  apply (Hunknown _ eq_refl eq_refl). compute_done.
Defined.

(** Every handler of [/api/search] answers with [json_response]. *)
Lemma handleRegister_json rt email password w :
  ∃ st o, (Api.handleRegister rt email password w).1 = Api.json_response st o.
Proof. unfold Api.handleRegister, Api.error_response. answers_json. Qed.

Lemma handleLogin_json rt email password w :
  ∃ st o, (Api.handleLogin rt email password w).1 = Api.json_response st o.
Proof. unfold Api.handleLogin, Api.error_response. answers_json. Qed.

Lemma handleSearch_json rt email criteria w :
  ∃ st o, (Api.handleSearch rt email criteria w).1 = Api.json_response st o.
Proof.
  unfold Api.handleSearch, Api.search_failed, Api.error_response. answers_json.
Qed.

Lemma handleUpgrade_json rt email w :
  ∃ st o, (Api.handleUpgrade rt email w).1 = Api.json_response st o.
Proof.
  unfold Api.handleUpgrade, Api.upgrade_failed, Api.error_response. answers_json.
Qed.

Lemma handleReset_json rt email w :
  ∃ st o, (Api.handleReset rt email w).1 = Api.json_response st o.
Proof. unfold Api.handleReset, Api.error_response. answers_json. Qed.

(** X26.  Every answer of the three endpoints, errors included, carries
    [Access-Control-Allow-Origin: *]. *)
Theorem every_response_allows_any_origin rt (nih : Passthrough.payload → fetched string)
    (api : Api.request) (hook : Webhook.request) (pass : Passthrough.request) (w : world) :
  allows_any_origin (Api.onRequest rt api w).1 = true
  ∧ allows_any_origin (Webhook.onRequest rt hook w).1 = true
  ∧ allows_any_origin (Passthrough.onRequest nih pass) = true.
Proof.
  split; [|split].
  - unfold Api.onRequest.
    destruct (String.eqb (Api.method api) "OPTIONS"); [reflexivity|].
    destruct (negb (String.eqb (Api.method api) "POST")); [reflexivity|].
    destruct (Api.json api) as [b|]; [|reflexivity]. cbv zeta.
    repeat match goal with
           | |- context [if String.eqb ?a ?s then _ else _] =>
               destruct (String.eqb a s)
           end;
      [ destruct (handleRegister_json rt (Body.email b) (Body.password b) w) as (? & ? & ->)
      | destruct (handleLogin_json rt (Body.email b) (Body.password b) w) as (? & ? & ->)
      | destruct (handleSearch_json rt (Body.email b) (Body.criteria b) w) as (? & ? & ->)
      | destruct (handleUpgrade_json rt (Body.email b) w) as (? & ? & ->)
      | destruct (handleReset_json rt (Body.email b) w) as (? & ? & ->)
      | ]; reflexivity.
  - unfold Webhook.onRequest, Webhook.on_object.
    destruct (String.eqb (Webhook.method hook) "OPTIONS"); [reflexivity|].
    destruct (negb (String.eqb (Webhook.method hook) "POST")); [reflexivity|].
    destruct (Webhook.text hook) as [payload|]; [|reflexivity]. cbv zeta. run.
    repeat case_match; reflexivity.
  - unfold Passthrough.onRequest, Passthrough.bad_request.
    repeat case_match; reflexivity.
Qed.

(** ** src/search.js: the passthrough *)

(** X27.  Whatever the caller asks for, the passthrough requests between 1
    and 100 results at a non-negative offset: a [limit] in range and an
    [offset] that is not negative are used as given, others are clamped to
    the nearest bound, and the defaults are 25 and 0.  Unlike the gate, it
    honours the caller's sort, with [project_start_date] descending as the
    default. *)
Theorem passthrough_paging_bounds (b : Passthrough.body_t) :
  let p := Passthrough.build_payload b in
  let limit := default 25 (Passthrough.limit b) in
  let offset := default 0 (Passthrough.offset b) in
  1 ≤ Passthrough.p_limit p ≤ 100 ∧ 0 ≤ Passthrough.p_offset p
  ∧ (Passthrough.p_limit p = limit ↔ 1 ≤ limit ≤ 100)
  ∧ (limit < 1 → Passthrough.p_limit p = 1) ∧ (100 < limit → Passthrough.p_limit p = 100)
  ∧ (Passthrough.p_offset p = offset ↔ 0 ≤ offset)
  ∧ (offset < 0 → Passthrough.p_offset p = 0)
  ∧ (∀ v, Passthrough.sort_field b = Some v → v ≠ JNull → Passthrough.p_sort_field p = v)
  ∧ (Passthrough.sort_field b = None → Passthrough.p_sort_field p = JStr "project_start_date")
  ∧ (Passthrough.sort_order b = None → Passthrough.p_sort_order p = JStr "desc").
Proof.
  cbv zeta. unfold Passthrough.build_payload. simpl.
  repeat split; try lia.
  - intros v -> Hv. by destruct v.
  - by intros ->.
  - by intros ->.
Qed.

Lemma passthrough_paging_bounds_witness :
  let b := {| Passthrough.criteria := None;
              Passthrough.limit := Some 5000;
              Passthrough.offset := Some (-3);
              Passthrough.sort_field := Some (JStr "award_amount");
              Passthrough.sort_order := None |} in
  let p := Passthrough.build_payload b in
  Passthrough.p_limit p = 100 ∧ Passthrough.p_offset p = 0
  ∧ Passthrough.p_sort_field p = JStr "award_amount"
  ∧ Passthrough.p_sort_order p = JStr "desc".
Proof.
  cbv zeta.
  destruct (passthrough_paging_bounds
              {| Passthrough.criteria := None;
                 Passthrough.limit := Some 5000;
                 Passthrough.offset := Some (-3);
                 Passthrough.sort_field := Some (JStr "award_amount");
                 Passthrough.sort_order := None |})
    as (_ & _ & _ & _ & Hhigh & _ & Hneg & Hfield & _ & Horder).
  split; [apply Hhigh; simpl; lia|]. split; [apply Hneg; simpl; lia|].
  split; [by apply Hfield | by apply Horder].
Defined.

(** X28.  The passthrough rewrites a truthy [text_search] like the gate
    does, and deletes [text] along with it: the criteria it posts have
    neither property, have the clause built from the text, and agree with
    the caller's criteria on every other property.  Without a truthy
    [text_search] they are the caller's criteria, [text] included; without
    criteria they are the empty object. *)
Theorem passthrough_criteria (b : Passthrough.body_t) :
  let incoming := default [] (Passthrough.criteria b) in
  let sent := Passthrough.p_criteria (Passthrough.build_payload b) in
  (∀ text, obj_get "text_search" incoming = Some text → truthy text = true →
     obj_get "text_search" sent = None ∧ obj_get "text" sent = None
     ∧ obj_get "advanced_text_search" sent = Some (advanced_text_search text)
     ∧ ∀ k, k ≠ "text_search" → k ≠ "text" → k ≠ "advanced_text_search" →
            obj_get k sent = obj_get k incoming)
  ∧ (truthy_opt (obj_get "text_search" incoming) = false → sent = incoming).
Proof.
  cbv zeta. unfold Passthrough.build_payload, Passthrough.map_criteria. simpl.
  split.
  - intros text -> ->. split; [|split; [|split]].
    + rewrite obj_get_delete_ne by done. apply obj_get_delete_eq.
    + apply obj_get_delete_eq.
    + rewrite !obj_get_delete_ne by done. apply obj_get_set_eq.
    + intros k H1 H2 H3. rewrite !obj_get_delete_ne by done. by rewrite obj_get_set_ne.
  - destruct (obj_get "text_search" _) as [text|]; simpl; [by intros ->|done].
Qed.

Lemma passthrough_criteria_witness :
  let b := {| Passthrough.criteria :=
                Some [("text", JStr "tumour"); ("text_search", JStr "cancer");
                      ("fiscal_years", JArr [JNum 2024])];
              Passthrough.limit := None;
              Passthrough.offset := None;
              Passthrough.sort_field := None;
              Passthrough.sort_order := None |} in
  let sent := Passthrough.p_criteria (Passthrough.build_payload b) in
  obj_get "text_search" sent = None ∧ obj_get "text" sent = None
  ∧ obj_get "advanced_text_search" sent = Some (advanced_text_search (JStr "cancer")).
Proof.
  cbv zeta.
  destruct (passthrough_criteria
              {| Passthrough.criteria :=
                   Some [("text", JStr "tumour"); ("text_search", JStr "cancer");
                         ("fiscal_years", JArr [JNum 2024])];
                 Passthrough.limit := None;
                 Passthrough.offset := None;
                 Passthrough.sort_field := None;
                 Passthrough.sort_order := None |}) as [Hrewrite _].
  destruct (Hrewrite (JStr "cancer") eq_refl eq_refl) as (H1 & H2 & H3 & _).
  split; [exact H1|]. split; [exact H2 | exact H3].
Defined.

(** X29.  A POST to the passthrough relays whatever the NIH API answers,
    status and text alike, a status outside 2xx included (the gate turns
    that into a 500).  What fails on the way -- a body that is not JSON, a
    rejected [fetch] -- is answered 400 with the message of the error, or
    "bad request" when the message is empty. *)
Theorem passthrough_relays (nih : Passthrough.payload → fetched string)
    (json : Passthrough.parsed) :
  let out := Passthrough.onRequest nih {| Passthrough.method := "POST"; Passthrough.json := json |} in
  (∀ b st text, json = Passthrough.Parsed b →
     nih (Passthrough.build_payload b) = Responded st text →
     status out = st ∧ body out = Text text)
  ∧ (∀ message,
       json = Passthrough.Throws message
       ∨ (∃ b, json = Passthrough.Parsed b
               ∧ nih (Passthrough.build_payload b) = Rejected message) →
       status out = 400
       ∧ body out = Json [("error", JStr (if String.eqb message "" then "bad request"
                                          else message))]).
Proof.
  cbv zeta. unfold Passthrough.onRequest. simpl. split.
  - by intros b st text -> ->.
  - intros message [-> | (b & -> & ->)]; done.
Qed.

Lemma passthrough_relays_witness :
  let out := Passthrough.onRequest (λ _, Responded 503 "upstream down")
               {| Passthrough.method := "POST";
                  Passthrough.json := Passthrough.Parsed
                    {| Passthrough.criteria := None;
                       Passthrough.limit := None;
                       Passthrough.offset := None;
                       Passthrough.sort_field := None;
                       Passthrough.sort_order := None |} |} in
  status out = 503 ∧ body out = Text "upstream down".
Proof.
  cbv zeta.
  destruct (passthrough_relays (λ _, Responded 503 "upstream down")
              (Passthrough.Parsed
                 {| Passthrough.criteria := None;
                    Passthrough.limit := None;
                    Passthrough.offset := None;
                    Passthrough.sort_field := None;
                    Passthrough.sort_order := None |})) as [Hrelay _].
  exact (Hrelay _ 503 "upstream down" eq_refl eq_refl).
Defined.
